(** * Wallapop agent API: a shallow embedding of the client, the
    normalizers, the hash scraper and the chat instruction builder.

    Sources: src/src/server.ts (the TypeScript server and client),
    src/src/browser.ts (the TypeScript instruction builder),
    src/unnamed/part_001 (the older JavaScript client).

    JavaScript values are modelled by [jval].  A number is kept as the
    exact rational its literal denotes; its JavaScript value is the
    nearest double ([to_double]), which is what truthiness and ToString
    look at.  A string, a sequence of UTF-16 code units, is represented
    by the UTF-8 encodings of its code units one after the other (1 to 3
    bytes each; a surrogate is encoded on its own, as a [\uXXXX] escape
    of JSON gives it). *)

From Stdlib Require Import Ascii String List ZArith QArith Bool Lia.
Import ListNotations.
Open Scope string_scope.
Set Warnings "-register-all".
Open Scope nat_scope.

(* ------------------------------------------------------------------ *)
(** ** JavaScript values *)

Inductive jval : Type :=
| JUndef
| JNull
| JBool (b : bool)
| JNum (q : Q)
| JStr (s : string)
| JArr (l : list jval)
| JObj (fields : list (string * jval)).

(** The double-quote character (code 34). *)
Definition dquote : ascii := Ascii false true false false false true false false.
Definition dq : string := String dquote EmptyString.

(* ------------------------------------------------------------------ *)
(** ** Numbers *)

Definition digit_char (n : nat) : ascii := ascii_of_nat (48 + n).

Fixpoint pos_to_string_aux (fuel : nat) (n : positive) (acc : string) : string :=
  match fuel with
  | O => acc
  | S f =>
      let '(q, r) := Z.div_eucl (Zpos n) 10 in
      let acc' := String (digit_char (Z.to_nat r)) acc in
      match q with
      | Zpos q' => pos_to_string_aux f q' acc'
      | _ => acc'
      end
  end.

Definition Z_to_string (z : Z) : string :=
  match z with
  | Z0 => "0"
  | Zpos p => pos_to_string_aux (Pos.size_nat p) p EmptyString
  | Zneg p => "-" ++ pos_to_string_aux (Pos.size_nat p) p EmptyString
  end.

(** The value of a number: [DFin m e] is [m * 2 ^ e], with [|m| < 2 ^ 53]
    and [e >= -1074] (zero is [DFin 0 0]); [DInf] the infinities. *)
Section Numbers.
Local Open Scope Z_scope.

Inductive double : Type :=
| DFin (m : Z) (e : Z)
| DInf (neg : bool).

(** [n / d] rounded to the nearest integer, ties to even ([d > 0]). *)
Definition round_div (n d : Z) : Z :=
  let '(q, r) := Z.div_eucl n d in
  match Z.compare (2 * r) d with
  | Lt => q
  | Gt => q + 1
  | Eq => if Z.even q then q else q + 1
  end.

(** [a / d >= 2 ^ k] *)
Definition ge_pow2 (a d k : Z) : bool :=
  if Z.leb 0 k then Z.leb (d * 2 ^ k) a else Z.leb d (a * 2 ^ (- k)).

(** The double nearest to [q], ties to even, as [JSON.parse] and number
    literals round: a value at or below half the least subnormal becomes
    0, a value rounding to [2 ^ 1024] or more becomes an infinity. *)
Definition to_double (q : Q) : double :=
  let n := Qnum q in
  let d := Zpos (Qden q) in
  if Z.eqb n 0 then DFin 0 0 else
  let a := Z.abs n in
  let k := Z.log2 a - Z.log2 d in
  let L := if ge_pow2 a d k then k else k - 1 in
  let e := Z.max (L - 52) (-1074) in
  let m := if Z.leb 0 e then round_div a (d * 2 ^ e) else round_div (a * 2 ^ (- e)) d in
  let '(m, e) := if Z.eqb m (2 ^ 53) then (2 ^ 52, e + 1) else (m, e) in
  if Z.ltb 971 e then DInf (Z.ltb n 0)
  else DFin (if Z.ltb n 0 then - m else m) e.

(** ToBoolean of a number: false for [+0] and [-0] (NaN cannot arise). *)
Definition num_truthy (q : Q) : bool :=
  match to_double q with DFin m _ => negb (Z.eqb m 0) | DInf _ => true end.

(** Number::toString (radix 10).  [v = num / den >= 10 ^ k] *)
Definition ge_pow10 (num den k : Z) : bool :=
  if Z.leb 0 k then Z.leb (den * 10 ^ k) num else Z.leb den (num * 10 ^ (- k)).

(** [floor (log10 v)], from an estimate corrected step by step. *)
Fixpoint adjust_log10 (fuel : nat) (num den p : Z) : Z :=
  match fuel with
  | O => p
  | S f =>
      if negb (ge_pow10 num den p) then adjust_log10 f num den (p - 1)
      else if ge_pow10 num den (p + 1) then adjust_log10 f num den (p + 1)
      else p
  end.

Definition dec_Q (c z : Z) : Q :=
  if Z.leb 0 z then inject_Z (c * 10 ^ z) else c # Z.to_pos (10 ^ (- z)).

Definition same_double (x y : double) : bool :=
  match x, y with
  | DFin m e, DFin m' e' => Z.eqb m m' && Z.eqb e e'
  | DInf b, DInf b' => Bool.eqb b b'
  | _, _ => false
  end.

(** The [k]-digit decimals next to [v] ([c * 10 ^ z], [z = p + 1 - k])
    that read back as [x]; when both do, the nearer (the even one on a
    tie). *)
Definition shortest_at (x : double) (num den p k : Z) : option (Z * Z) :=
  let z := p + 1 - k in
  let lo := if Z.leb 0 z then num / (den * 10 ^ z) else (num * 10 ^ (- z)) / den in
  let hi := lo + 1 in
  let ok c := same_double (to_double (dec_Q c z)) x in
  match ok lo, ok hi with
  | true, true =>
      let c := if Z.leb 0 z then Z.compare (2 * num) ((2 * lo + 1) * den * 10 ^ z)
               else Z.compare (2 * num * 10 ^ (- z)) ((2 * lo + 1) * den) in
      match c with
      | Lt => Some (lo, z)
      | Gt => Some (hi, z)
      | Eq => Some (if Z.even lo then lo else hi, z)
      end
  | true, false => Some (lo, z)
  | false, true => Some (hi, z)
  | false, false => None
  end.

(** The least number of digits that reads back as [x] (17 always do). *)
Fixpoint shortest_from (fuel : nat) (x : double) (num den p k : Z) : Z * Z :=
  match fuel with
  | O => (0, 0)
  | S f =>
      match shortest_at x num den p k with
      | Some r => r
      | None => shortest_from f x num den p (k + 1)
      end
  end.

Fixpoint strip_zeros (fuel : nat) (c z : Z) : Z * Z :=
  match fuel with
  | O => (c, z)
  | S f => if Z.eqb (c mod 10) 0 && negb (Z.eqb c 0) then strip_zeros f (c / 10) (z + 1) else (c, z)
  end.

Fixpoint zeros (n : nat) : string :=
  match n with O => EmptyString | S m => String "0" (zeros m) end.

(** Steps 6 to 10 of Number::toString: digits [D], point position [n]. *)
Definition format_decimal (D : string) (n : Z) : string :=
  let k := Z.of_nat (String.length D) in
  if Z.leb k n && Z.leb n 21 then D ++ zeros (Z.to_nat (n - k))
  else if Z.ltb 0 n && Z.leb n 21 then
    substring 0 (Z.to_nat n) D ++ "." ++ substring (Z.to_nat n) (String.length D) D
  else if Z.ltb (-6) n && Z.leb n 0 then "0." ++ zeros (Z.to_nat (- n)) ++ D
  else
    let e := n - 1 in
    let es := (if Z.leb 0 e then "+" else "-") ++ Z_to_string (Z.abs e) in
    match D with
    | String d EmptyString => String d EmptyString ++ "e" ++ es
    | String d rest => String d EmptyString ++ "." ++ rest ++ "e" ++ es
    | EmptyString => "e" ++ es
    end.

Definition double_to_string (x : double) : string :=
  match x with
  | DInf false => "Infinity"
  | DInf true => "-Infinity"
  | DFin m e =>
      if Z.eqb m 0 then "0" else
      let a := Z.abs m in
      let '(num, den) := if Z.leb 0 e then (a * 2 ^ e, 1) else (a, 2 ^ (- e)) in
      let p := adjust_log10 10 num den (((Z.log2 num - Z.log2 den) * 30103) / 100000) in
      let '(c, z) := shortest_from 17 (DFin a e) num den p 1 in
      let '(c, z) := strip_zeros 20 c z in
      let D := Z_to_string c in
      (if Z.ltb m 0 then "-" else "") ++ format_decimal D (z + Z.of_nat (String.length D))
  end.

(** ToString of a number. *)
Definition num_to_string (q : Q) : string := double_to_string (to_double q).
End Numbers.

(** ToBoolean *)
Definition truthy (v : jval) : bool :=
  match v with
  | JUndef | JNull => false
  | JBool b => b
  | JNum q => num_truthy q
  | JStr s => negb (String.eqb s "")
  | JArr _ | JObj _ => true
  end.

(** [a || b] *)
Definition js_or (a b : jval) : jval := if truthy a then a else b.

(** [a ?? b] *)
Definition js_nullish (a b : jval) : jval :=
  match a with JUndef | JNull => b | _ => a end.

(** [typeof v === 'object'] *)
Definition typeof_object (v : jval) : bool :=
  match v with JNull | JArr _ | JObj _ => true | _ => false end.

(** Own property of a parsed object: [JSON.parse] keeps the last of
    duplicated keys. *)
Fixpoint obj_lookup (fs : list (string * jval)) (k : string) : option jval :=
  match fs with
  | [] => None
  | (k', v) :: r =>
      match obj_lookup r k with
      | Some w => Some w
      | None => if String.eqb k k' then Some v else None
      end
  end.

Definition is_digit (c : ascii) : bool :=
  let n := nat_of_ascii c in Nat.leb 48 n && Nat.leb n 57.

Definition digit_val (c : ascii) : nat := nat_of_ascii c - 48.

Fixpoint digits_value (s : string) (acc : Z) : Z :=
  match s with
  | EmptyString => acc
  | String c r => digits_value r (acc * 10 + Z.of_nat (digit_val c))%Z
  end.

Fixpoint all_digits (s : string) : bool :=
  match s with
  | EmptyString => true
  | String c r => is_digit c && all_digits r
  end.

(** Canonical array index ("0", "1", ..., no leading zero). *)
Definition array_index (k : string) : option Z :=
  match k with
  | EmptyString => None
  | String c r =>
      if all_digits k && (negb (Ascii.eqb c "0"%char) || String.eqb r "")
      then Some (digits_value k 0%Z) else None
  end.

(** Continuation bytes (0x80..0xBF) of the UTF-8 encoding. *)
Definition is_cont_byte (c : ascii) : bool :=
  let n := nat_of_ascii c in Nat.leb 128 n && Nat.leb n 191.

(** The code units of a string: a lead byte and its continuation bytes. *)
Fixpoint code_units (s : string) : list string :=
  match s with
  | EmptyString => []
  | String c r =>
      match code_units r with
      | u :: us => if is_cont_byte (match u with String c' _ => c' | EmptyString => c end)
                   then String c u :: us else String c EmptyString :: u :: us
      | [] => [String c EmptyString]
      end
  end.

(** Property read [v.k] (and [v[k]]); [None] is the TypeError raised on
    [undefined] and [null]. *)
Definition get_prop (v : jval) (k : string) : option jval :=
  match v with
  | JUndef | JNull => None
  | JObj fs => Some (match obj_lookup fs k with Some w => w | None => JUndef end)
  | JArr l =>
      if String.eqb k "length" then Some (JNum (inject_Z (Z.of_nat (length l))))
      else match array_index k with
           | Some i => Some (nth (Z.to_nat i) l JUndef)
           | None => Some JUndef
           end
  | JStr s =>
      if String.eqb k "length" then Some (JNum (inject_Z (Z.of_nat (length (code_units s)))))
      else match array_index k with
           | Some i => Some (match nth_error (code_units s) (Z.to_nat i) with
                             | Some u => JStr u
                             | None => JUndef
                             end)
           | None => Some JUndef
           end
  | JBool _ | JNum _ => Some JUndef
  end.

(** Optional chaining step [v?.k]. *)
Definition opt_get (v : jval) (k : string) : jval :=
  match v with
  | JUndef | JNull => JUndef
  | _ => match get_prop v k with Some w => w | None => JUndef end
  end.

(** A chain [v?.k1?.k2 ... ?.kn]. *)
Definition opt_path (v : jval) (ks : list string) : jval :=
  fold_left opt_get ks v.

(* ------------------------------------------------------------------ *)
(** ** ToString of values, as used by template literals *)

Fixpoint join_comma (l : list string) : string :=
  match l with
  | [] => ""
  | [x] => x
  | x :: r => x ++ "," ++ join_comma r
  end.

(** ToString, used by [`${v}`]. *)
Fixpoint js_to_string (v : jval) : string :=
  match v with
  | JUndef => "undefined"
  | JNull => "null"
  | JBool true => "true"
  | JBool false => "false"
  | JNum q => num_to_string q
  | JStr s => s
  | JArr l =>
      join_comma
        (map (fun w => match w with JUndef | JNull => "" | _ => js_to_string w end) l)
  | JObj _ => "[object Object]"
  end.

(** Whether ToString throws: a parsed object with an own [toString] key
    shadows [Object.prototype.toString] with a value that is not a
    function; OrdinaryToPrimitive skips it, [valueOf] returns the object
    itself, which is not a primitive, and a TypeError is thrown.  An array
    is joined, so it throws when one of its elements (other than
    [undefined] and [null]) does. *)
Fixpoint to_string_throws (v : jval) : bool :=
  match v with
  | JObj fs => match obj_lookup fs "toString" with Some _ => true | None => false end
  | JArr l =>
      existsb (fun w => match w with JUndef | JNull => false | _ => to_string_throws w end) l
  | _ => false
  end.

(* ------------------------------------------------------------------ *)
(** ** [JSON.parse] (ECMA-404 grammar)

    Parsing is by fuel; every nested call consumes at least one
    character first, so [S (length s)] is enough fuel for [s].
    A [\uXXXX] escape is stored as its UTF-8 bytes (code units
    0..0xFFFF, surrogates encoded one by one). *)

Definition is_json_ws (c : ascii) : bool :=
  let n := nat_of_ascii c in
  Nat.eqb n 32 || Nat.eqb n 9 || Nat.eqb n 10 || Nat.eqb n 13.

Fixpoint skip_ws (s : string) : string :=
  match s with
  | String c r => if is_json_ws c then skip_ws r else s
  | EmptyString => s
  end.

Definition hex_val (c : ascii) : option nat :=
  let n := nat_of_ascii c in
  if Nat.leb 48 n && Nat.leb n 57 then Some (n - 48)
  else if Nat.leb 65 n && Nat.leb n 70 then Some (n - 55)
  else if Nat.leb 97 n && Nat.leb n 102 then Some (n - 87)
  else None.

Definition utf8_of_unit (u : nat) : string :=
  if Nat.ltb u 128 then String (ascii_of_nat u) EmptyString
  else if Nat.ltb u 2048 then
    String (ascii_of_nat (192 + u / 64))
      (String (ascii_of_nat (128 + u mod 64)) EmptyString)
  else
    String (ascii_of_nat (224 + u / 4096))
      (String (ascii_of_nat (128 + (u / 64) mod 64))
        (String (ascii_of_nat (128 + u mod 64)) EmptyString)).

(** Body of a string literal after the opening quote; returns the
    decoded text and the input after the closing quote. *)
Fixpoint parse_string_body (s : string) : option (string * string) :=
  match s with
  | EmptyString => None
  | String c r =>
      if Ascii.eqb c dquote then Some (EmptyString, r)
      else if Ascii.eqb c "\"%char then
        match r with
        | EmptyString => None
        | String e r' =>
            let simple (d : ascii) :=
              match parse_string_body r' with
              | Some (t, rest) => Some (String d t, rest)
              | None => None
              end in
            if Ascii.eqb e dquote then simple dquote
            else if Ascii.eqb e "\"%char then simple "\"%char
            else if Ascii.eqb e "/"%char then simple "/"%char
            else if Ascii.eqb e "b"%char then simple (ascii_of_nat 8)
            else if Ascii.eqb e "f"%char then simple (ascii_of_nat 12)
            else if Ascii.eqb e "n"%char then simple (ascii_of_nat 10)
            else if Ascii.eqb e "r"%char then simple (ascii_of_nat 13)
            else if Ascii.eqb e "t"%char then simple (ascii_of_nat 9)
            else if Ascii.eqb e "u"%char then
              match r' with
              | String h1 (String h2 (String h3 (String h4 r''))) =>
                  match hex_val h1, hex_val h2, hex_val h3, hex_val h4 with
                  | Some a, Some b, Some c', Some d =>
                      match parse_string_body r'' with
                      | Some (t, rest) =>
                          Some (utf8_of_unit (((a * 16 + b) * 16 + c') * 16 + d) ++ t, rest)
                      | None => None
                      end
                  | _, _, _, _ => None
                  end
              | _ => None
              end
            else None
        end
      else if Nat.ltb (nat_of_ascii c) 32 then None
      else match parse_string_body r with
           | Some (t, rest) => Some (String c t, rest)
           | None => None
           end
  end.

(** A maximal run of decimal digits. *)
Fixpoint take_digits (s : string) : string * string :=
  match s with
  | String c r =>
      if is_digit c then let '(d, rest) := take_digits r in (String c d, rest)
      else (EmptyString, s)
  | EmptyString => (EmptyString, EmptyString)
  end.

Definition digits_Z (d : string) : Z := digits_value d 0%Z.

Definition decimal_Q (m : Z) (e : Z) : Q :=
  if Z.leb 0 e then inject_Z (m * 10 ^ e) else m # Z.to_pos (10 ^ (- e)).

(** number = [-] int [frac] [exp]; the input starts at the number. *)
Definition parse_number (s : string) : option (Q * string) :=
  let '(neg, s1) :=
    match s with String c r => if Ascii.eqb c "-"%char then (true, r) else (false, s)
               | EmptyString => (false, s) end in
  let '(ip, s2) := take_digits s1 in
  match ip with
  | EmptyString => None
  | String c0 r0 =>
      if Ascii.eqb c0 "0"%char && negb (String.eqb r0 "") then None else
      let '(fp, s3) :=
        match s2 with
        | String c r => if Ascii.eqb c "."%char then take_digits r else (EmptyString, s2)
        | EmptyString => (EmptyString, s2)
        end in
      let frac_ok :=
        match s2 with
        | String c _ => if Ascii.eqb c "."%char then negb (String.eqb fp "") else true
        | EmptyString => true
        end in
      if negb frac_ok then None else
      let ex :=
        match s3 with
        | String c r =>
            if Ascii.eqb c "e"%char || Ascii.eqb c "E"%char then
              let '(eneg, r1) :=
                match r with
                | String c' r' =>
                    if Ascii.eqb c' "-"%char then (true, r')
                    else if Ascii.eqb c' "+"%char then (false, r') else (false, r)
                | EmptyString => (false, r)
                end in
              let '(ed, r2) := take_digits r1 in
              if String.eqb ed "" then None
              else Some ((if eneg then - digits_Z ed else digits_Z ed)%Z, r2)
            else Some (0%Z, s3)
        | EmptyString => Some (0%Z, s3)
        end in
      match ex with
      | None => None
      | Some (e, rest) =>
          let m := digits_Z (ip ++ fp) in
          let m := if neg then (- m)%Z else m in
          Some (decimal_Q m (e - Z.of_nat (String.length fp)), rest)
      end
  end.

Fixpoint parse_value (fuel : nat) (s : string) : option (jval * string) :=
  match fuel with
  | O => None
  | S f =>
      match skip_ws s with
      | EmptyString => None
      | String c r as t =>
          if Ascii.eqb c "{"%char then
            match skip_ws r with
            | String c' r' =>
                if Ascii.eqb c' "}"%char then Some (JObj [], r')
                else parse_members f [] (String c' r')
            | EmptyString => None
            end
          else if Ascii.eqb c "["%char then
            match skip_ws r with
            | String c' r' =>
                if Ascii.eqb c' "]"%char then Some (JArr [], r')
                else parse_elements f [] (String c' r')
            | EmptyString => None
            end
          else if Ascii.eqb c dquote then
            match parse_string_body r with
            | Some (str, rest) => Some (JStr str, rest)
            | None => None
            end
          else if String.prefix "true" t then Some (JBool true, substring 4 (String.length t) t)
          else if String.prefix "false" t then Some (JBool false, substring 5 (String.length t) t)
          else if String.prefix "null" t then Some (JNull, substring 4 (String.length t) t)
          else match parse_number t with
               | Some (q, rest) => Some (JNum q, rest)
               | None => None
               end
      end
  end
(** members after [{] (or after a [,]): ws string ws : value ws ([,] | [}]) *)
with parse_members (fuel : nat) (acc : list (string * jval)) (s : string)
    : option (jval * string) :=
  match fuel with
  | O => None
  | S f =>
      match skip_ws s with
      | String c r =>
          if Ascii.eqb c dquote then
            match parse_string_body r with
            | Some (k, r1) =>
                match skip_ws r1 with
                | String c1 r2 =>
                    if Ascii.eqb c1 ":"%char then
                      match parse_value f r2 with
                      | Some (v, r3) =>
                          match skip_ws r3 with
                          | String c3 r4 =>
                              if Ascii.eqb c3 ","%char then parse_members f (acc ++ [(k, v)]) r4
                              else if Ascii.eqb c3 "}"%char then Some (JObj (acc ++ [(k, v)]), r4)
                              else None
                          | EmptyString => None
                          end
                      | None => None
                      end
                    else None
                | EmptyString => None
                end
            | None => None
            end
          else None
      | EmptyString => None
      end
  end
(** elements after [[] (or after a [,]): value ws ([,] | []]) *)
with parse_elements (fuel : nat) (acc : list jval) (s : string)
    : option (jval * string) :=
  match fuel with
  | O => None
  | S f =>
      match parse_value f s with
      | Some (v, r1) =>
          match skip_ws r1 with
          | String c r2 =>
              if Ascii.eqb c ","%char then parse_elements f (acc ++ [v]) r2
              else if Ascii.eqb c "]"%char then Some (JArr (acc ++ [v]), r2)
              else None
          | EmptyString => None
          end
      | None => None
      end
  end.

(** [JSON.parse(text)]; [None] is the SyntaxError it throws. *)
Definition json_parse (text : string) : option jval :=
  match parse_value (S (S (String.length text))) text with
  | Some (v, rest) => if String.eqb (skip_ws rest) "" then Some v else None
  | None => None
  end.

(* ------------------------------------------------------------------ *)
(** ** The [__NEXT_DATA__] pattern of [getItemHash]

    [/<script\s+id="__NEXT_DATA__"\s+type="application\/json">([^<]+)<\/script>/]
    [String.prototype.match] tries start positions from left to right.
    Each [\s+] is followed by a letter and [[^<]+] by ['<'], so the greedy
    run is the only one that can succeed and no backtracking is needed.
    No multi-byte code unit contains the byte of ['<'], so a match only
    starts at a code unit. *)

Fixpoint span (p : ascii -> bool) (s : string) : string * string :=
  match s with
  | String c r => if p c then let '(a, b) := span p r in (String c a, b) else (EmptyString, s)
  | EmptyString => (EmptyString, EmptyString)
  end.

Fixpoint drop (n : nat) (s : string) : string :=
  match n, s with
  | O, _ => s
  | S n', String _ r => drop n' r
  | S _, EmptyString => EmptyString
  end.

(** [s.startsWith(lit)] *)
Fixpoint starts_with (lit s : string) : bool :=
  match lit with
  | EmptyString => true
  | String a l' =>
      match s with
      | String b s' => Ascii.eqb a b && starts_with l' s'
      | EmptyString => false
      end
  end.

(** [lit] must be a prefix; the rest follows. *)
Definition eat (lit s : string) : option string :=
  if starts_with lit s then Some (drop (String.length lit) s) else None.

Definition bytes (l : list nat) : string :=
  fold_right (fun n s => String (ascii_of_nat n) s) EmptyString l.

(** The code units [\s] matches: WhiteSpace and LineTerminator of
    ECMA-262, i.e. U+0009..U+000D, U+0020, U+00A0, U+1680,
    U+2000..U+200A, U+2028, U+2029, U+202F, U+205F, U+3000, U+FEFF. *)
Definition space_units : list string :=
  map bytes
    [[9]; [10]; [11]; [12]; [13]; [32]; [194; 160]; [225; 154; 128];
     [226; 128; 128]; [226; 128; 129]; [226; 128; 130]; [226; 128; 131];
     [226; 128; 132]; [226; 128; 133]; [226; 128; 134]; [226; 128; 135];
     [226; 128; 136]; [226; 128; 137]; [226; 128; 138];
     [226; 128; 168]; [226; 128; 169]; [226; 128; 175]; [226; 129; 159];
     [227; 128; 128]; [239; 187; 191]].

(** One [\s]. *)
Definition eat_one_space (s : string) : option string :=
  match find (fun u => starts_with u s) space_units with
  | Some u => Some (drop (String.length u) s)
  | None => None
  end.

(** [\s*], greedy; each step consumes at least one byte. *)
Fixpoint skip_spaces (fuel : nat) (s : string) : string :=
  match fuel with
  | O => s
  | S f => match eat_one_space s with Some r => skip_spaces f r | None => s end
  end.

(** One or more [\s]. *)
Definition eat_spaces (s : string) : option string :=
  match eat_one_space s with
  | Some r => Some (skip_spaces (String.length r) r)
  | None => None
  end.

Definition id_attr : string := "id=" ++ dq ++ "__NEXT_DATA__" ++ dq.
Definition type_attr : string := "type=" ++ dq ++ "application/json" ++ dq ++ ">".

(** The pattern anchored at the start of [s]; the result is group 1. *)
Definition next_data_at (s : string) : option string :=
  match eat "<script" s with
  | None => None
  | Some s1 =>
  match eat_spaces s1 with
  | None => None
  | Some s2 =>
  match eat id_attr s2 with
  | None => None
  | Some s3 =>
  match eat_spaces s3 with
  | None => None
  | Some s4 =>
  match eat type_attr s4 with
  | None => None
  | Some s5 =>
      let '(content, s6) := span (fun c => negb (Ascii.eqb c "<"%char)) s5 in
      if String.eqb content "" then None
      else match eat "</script>" s6 with
           | Some _ => Some content
           | None => None
           end
  end end end end end.

(** [html.match(re)?.[1]]: the first match, leftmost start. *)
Fixpoint next_data_match (html : string) : option string :=
  match next_data_at html with
  | Some c => Some c
  | None =>
      match html with
      | EmptyString => None
      | String _ r => next_data_match r
      end
  end.

(* ------------------------------------------------------------------ *)
(** ** Requests, responses and the client's programs

    A call of the client is a program that may issue requests to the
    upstream.  [ApiGet] is a call to the JSON API (path relative to
    https://api.wallapop.com/api/v3, query object, fixed headers);
    [PageGet] a fetch of an HTML page. *)

Inductive qval : Type :=
| QNum (q : Q)
| QStr (s : string).

Inductive response : Type :=
| NetFail
| Resp (status : Z) (body : string).

(** Exceptions: [new Error(msg)], a TypeError (property read on
    [undefined]/[null], call of a missing method), the SyntaxError of
    [JSON.parse]/[res.json()], and a rejected [fetch]. *)
Inductive js_error : Type :=
| ErrorMsg (msg : string)
| TypeError
| SyntaxError
| NetworkError.

Inductive prog (A : Type) : Type :=
| Ret (a : A)
| Throw (e : js_error)
| ApiGet (path : string) (query : list (string * qval))
         (headers : list (string * string)) (k : response -> prog A)
| PageGet (url : string) (headers : list (string * string)) (k : response -> prog A).

Arguments Ret {A} a.
Arguments Throw {A} e.
Arguments ApiGet {A} path query headers k.
Arguments PageGet {A} url headers k.

Fixpoint bind {A B} (m : prog A) (f : A -> prog B) : prog B :=
  match m with
  | Ret a => f a
  | Throw e => Throw e
  | ApiGet p q h k => ApiGet p q h (fun r => bind (k r) f)
  | PageGet u h k => PageGet u h (fun r => bind (k r) f)
  end.

Notation "x <- m ;; f" := (bind m (fun x => f)) (at level 61, m at next level, right associativity).

Definition of_option {A} (e : js_error) (o : option A) : prog A :=
  match o with Some a => Ret a | None => Throw e end.

(** The page URL a program fetches first, if it starts with a fetch. *)
Definition first_page_url {A} (p : prog A) : option string :=
  match p with PageGet u _ _ => Some u | _ => None end.

(* ------------------------------------------------------------------ *)
(** ** [WallapopClient.getItemHash] (server.ts; part_001 is the same up
    to the text of the last error message) *)

Definition item_page_base : string := "https://es.wallapop.com/item/".

Definition page_user_agent : list (string * string) :=
  [("User-Agent", "Mozilla/5.0 (Macintosh; Intel Mac OS X 10_15_7)")].

(** [if (urlOrSlug.startsWith('http')) ... else `https://es.wallapop.com/item/${urlOrSlug}`] *)
Definition item_full_url (urlOrSlug : string) : string :=
  if starts_with "http" urlOrSlug then urlOrSlug else item_page_base ++ urlOrSlug.

Definition hash_path : list string := ["props"; "pageProps"; "item"; "id"].

(** What [getItemHash] does with the page text. *)
Definition hash_of_page (html : string) : prog jval :=
  match next_data_match html with
  | None => Throw (ErrorMsg "Could not find __NEXT_DATA__ in page")
  | Some content =>
      match json_parse content with
      | None => Throw SyntaxError
      | Some nextData =>
          let hash := opt_path nextData hash_path in
          if truthy hash then Ret hash
          else Throw (ErrorMsg "Could not extract item hash from page data")
      end
  end.

(** The status of the page response is not checked: [res.text()] is
    read whatever it is. *)
Definition getItemHash (urlOrSlug : string) : prog jval :=
  PageGet (item_full_url urlOrSlug) page_user_agent
    (fun r => match r with
              | NetFail => Throw NetworkError
              | Resp _ html => hash_of_page html
              end).

Definition chat_base : string := "https://es.wallapop.com/app/chat?itemId=".

(** [WallapopClient.chatUrl] *)
Definition chatUrl (itemHash : string) : string := chat_base ++ itemHash.

(* ------------------------------------------------------------------ *)
(** ** [buildChatInstructions] (browser.ts, TypeScript version) *)

Record ChatStep : Type := mkChatStep {
  action : string;
  step_url : option string;
  selector : option string;
  text : option string;
  submit : option bool;
  note : string
}.

Record ChatInstructions : Type := mkChatInstructions {
  ci_hash : string;
  ci_chatUrl : string;
  ci_message : string;
  steps : list ChatStep
}.

Definition textbox_sel : string := "textbox " ++ dq ++ "Escribe un mensaje..." ++ dq.

Definition buildChatInstructions (itemHash message : string) : ChatInstructions :=
  let chatUrl := chat_base ++ itemHash in
  let steps :=
    [ mkChatStep "navigate" (Some chatUrl) None None None
        "Opens chat thread with seller for this item";
      mkChatStep "snapshot" None None None None
        ("Wait for page load, find " ++ textbox_sel);
      mkChatStep "click" None (Some textbox_sel) None None
        "Focus the message input";
      mkChatStep "type" None None (Some message) (Some true)
        "Type message and press Enter to send";
      mkChatStep "snapshot" None None None None
        "Verify message appears in chat with timestamp" ] in
  mkChatInstructions itemHash chatUrl message steps.

(* ------------------------------------------------------------------ *)
(** ** [WallapopClient.get] *)

Definition REQUIRED_HEADERS : list (string * string) :=
  [("Host", "api.wallapop.com"); ("X-DeviceOS", "0")].

Definition status_ok (st : Z) : bool := (Z.leb 200 st && Z.leb st 299)%bool.

(** [res.ok] is checked, then [res.json()] parses the body. *)
Definition get (path : string) (query : list (string * qval)) : prog jval :=
  ApiGet path query REQUIRED_HEADERS
    (fun r => match r with
              | NetFail => Throw NetworkError
              | Resp st body =>
                  if status_ok st then of_option SyntaxError (json_parse body)
                  else Throw (ErrorMsg ("Wallapop API " ++ Z_to_string st ++ ": " ++ body))
              end).

(** [v.k] on a value known not to be [undefined] or [null]. *)
Definition prop (v : jval) (k : string) : jval :=
  match get_prop v k with Some w => w | None => JUndef end.

Definition nullish (v : jval) : bool :=
  match v with JUndef | JNull => true | _ => false end.

(* ------------------------------------------------------------------ *)
(** ** Simplifiers *)

Record SearchItem : Type := mkSearchItem {
  si_id : jval;
  si_title : jval;
  si_price : jval;
  si_currency : jval;
  si_city : jval;
  si_distance : jval;
  si_slug : jval;
  si_url : string;
  si_image : jval;
  si_sellerId : jval;
  si_reserved : jval;
  si_shippable : jval;
  si_createdAt : jval
}.

(** [simplifySearchItem] (identical in server.ts and part_001); [None]
    is the TypeError of [item.id] on a nullish item, or that of the
    template literal of [url] when ToString of [item.web_slug] throws. *)
Definition simplifySearchItem (item : jval) : option SearchItem :=
  if nullish item then None else
  if to_string_throws (prop item "web_slug") then None else
  Some {|
    si_id := prop item "id";
    si_title := prop item "title";
    si_price := opt_get (prop item "price") "amount";
    si_currency := js_or (opt_get (prop item "price") "currency") (JStr "EUR");
    si_city := opt_get (prop item "location") "city";
    si_distance := prop item "distance";
    si_slug := prop item "web_slug";
    si_url := item_page_base ++ js_to_string (prop item "web_slug");
    si_image := opt_path (prop item "images") ["0"; "urls"; "medium"];
    si_sellerId := prop item "user_id";
    si_reserved := js_or (opt_get (prop item "reserved") "flag") (JBool false);
    si_shippable := js_or (opt_get (prop item "shipping") "user_allows_shipping") (JBool false);
    si_createdAt := prop item "created_at"
  |}.

Record ItemDetails : Type := mkItemDetails {
  d_id : jval;
  d_title : jval;
  d_description : jval;
  d_price : jval;
  d_currency : jval;
  d_city : jval;
  d_seller_id : jval;
  d_seller_name : jval;
  d_slug : jval;
  d_url : string;
  d_images : jval;
  d_reserved : jval;
  d_sold : jval;
  d_counters : jval;
  d_createdAt : jval
}.

(** [typeof x === 'object' ? x.original : x]; [None] is the TypeError
    when [x] is [null]. *)
Definition original_text (x : jval) : option jval :=
  if typeof_object x then get_prop x "original" else Some x.

(** The object literal returned by both versions of [simplifyItemDetails],
    given the [title], [desc] and [price] constants. *)
Definition item_details_of (raw title desc price : jval) : ItemDetails :=
  let pr := prop raw "price" in
  {|
    d_id := prop raw "id";
    d_title := title;
    d_description := desc;
    d_price := price;
    d_currency := js_or (js_or (opt_path pr ["cash"; "currency"]) (opt_get pr "currency")) (JStr "EUR");
    d_city := opt_get (prop raw "location") "city";
    d_seller_id := opt_get (prop raw "user") "id";
    d_seller_name := opt_get (prop raw "user") "micro_name";
    d_slug := prop raw "web_slug";
    d_url := item_page_base ++ js_to_string (prop raw "web_slug");
    d_images := prop (js_or (prop raw "images") (JArr [])) "length";
    d_reserved := js_or (opt_get (prop raw "reserved") "flag") (JBool false);
    d_sold := js_or (opt_get (prop raw "sold") "flag") (JBool false);
    d_counters := js_or (prop raw "counters") JNull;
    d_createdAt := prop raw "creation_date"
  |}.

(** [simplifyItemDetails] of server.ts:
    [const price = raw.price?.cash?.amount ?? raw.price?.amount ?? 0;]
    [None] is a TypeError: [raw] nullish, [title] or [description] null
    (reading [.original]), or ToString of [raw.web_slug] throwing in the
    template literal of [url]. *)
Definition simplifyItemDetails (raw : jval) : option ItemDetails :=
  if nullish raw then None else
  match original_text (prop raw "title") with
  | None => None
  | Some title =>
  match original_text (prop raw "description") with
  | None => None
  | Some desc =>
      let price := js_nullish (js_nullish (opt_path (prop raw "price") ["cash"; "amount"])
                                          (opt_get (prop raw "price") "amount"))
                              (JNum 0) in
      if to_string_throws (prop raw "web_slug") then None
      else Some (item_details_of raw title desc price)
  end end.

(** [simplifyItemDetails] of part_001:
    [const price = raw.price?.cash?.amount ?? raw.price?.amount;] *)
Definition simplifyItemDetails_part001 (raw : jval) : option ItemDetails :=
  if nullish raw then None else
  match original_text (prop raw "title") with
  | None => None
  | Some title =>
  match original_text (prop raw "description") with
  | None => None
  | Some desc =>
      let price := js_nullish (opt_path (prop raw "price") ["cash"; "amount"])
                              (opt_get (prop raw "price") "amount") in
      if to_string_throws (prop raw "web_slug") then None
      else Some (item_details_of raw title desc price)
  end end.

(* ------------------------------------------------------------------ *)
(** ** [WallapopClient.search] (server.ts)

    [SearchParams] as declared in types.ts; [None] is a field left
    [undefined].  Numbers are finite. *)

Record SearchParams : Type := mkSearchParams {
  keywords : option string;
  minPrice : option Q;
  maxPrice : option Q;
  distance : option Q;
  latitude : option Q;
  longitude : option Q;
  categoryId : option Q;
  orderBy : option string;
  limit : option Q;
  nextPage : option string
}.

Definition DEFAULT_LAT : Q := 413891 # 10000.
Definition DEFAULT_LNG : Q := 21606 # 10000.

(** [if (s)] on an optional string. *)
Definition str_truthy (o : option string) : bool :=
  match o with Some s => negb (String.eqb s "") | None => false end.

Definition opt_field {A} (k : string) (o : option A) (f : A -> qval) : list (string * qval) :=
  match o with Some a => [(k, f a)] | None => [] end.

Definition str_field (k : string) (o : option string) : list (string * qval) :=
  match o with Some s => if String.eqb s "" then [] else [(k, QStr s)] | None => [] end.

Definition default_Q (o : option Q) (d : Q) : Q :=
  match o with Some q => q | None => d end.

(** The [else] branch of [search]: the filters. *)
Definition search_filters (params : SearchParams) : list (string * qval) :=
  str_field "keywords" (keywords params)
  ++ opt_field "min_sale_price" (minPrice params) QNum
  ++ opt_field "max_sale_price" (maxPrice params) QNum
  ++ opt_field "distance" (distance params) QNum
  ++ [("latitude", QNum (default_Q (latitude params) DEFAULT_LAT));
      ("longitude", QNum (default_Q (longitude params) DEFAULT_LNG))]
  ++ opt_field "category_id" (categoryId params) QNum
  ++ str_field "order_by" (orderBy params).

(** The [query] object built by [search], in insertion order:
    [{ step: 1, source: 'keywords', limit: params.limit ?? 20 }], then
    [next_page] when [params.nextPage] is truthy, the filters otherwise. *)
Definition search_query (params : SearchParams) : list (string * qval) :=
  [("step", QNum 1); ("source", QStr "keywords"); ("limit", QNum (default_Q (limit params) 20))]
  ++ match nextPage params with
     | Some np => if String.eqb np "" then search_filters params else [("next_page", QStr np)]
     | None => search_filters params
     end.

Record SearchResult : Type := mkSearchResult {
  sr_items : list SearchItem;
  sr_nextPage : jval;
  sr_total : nat
}.

Fixpoint map_option {A B} (f : A -> option B) (l : list A) : option (list B) :=
  match l with
  | [] => Some []
  | x :: r =>
      match f x with
      | None => None
      | Some y => match map_option f r with Some ys => Some (y :: ys) | None => None end
      end
  end.

(** What [search] does with the parsed response [data]: [items.map]
    throws a TypeError when [items] is not an array. *)
Definition search_result_of (data : jval) : prog SearchResult :=
  let items := js_or (opt_path data ["data"; "section"; "payload"; "items"]) (JArr []) in
  match items with
  | JArr l =>
      its <- of_option TypeError (map_option simplifySearchItem l) ;;
      Ret {| sr_items := its;
             sr_nextPage := js_or (opt_path data ["meta"; "next_page"]) JNull;
             sr_total := length l |}
  | _ => Throw TypeError
  end.

Definition search (params : SearchParams) : prog SearchResult :=
  data <- get "/search" (search_query params) ;;
  search_result_of data.

(* ------------------------------------------------------------------ *)
(** ** [POST /api/search-and-contact] (server.ts)

    The body fields as the handler declares them. *)

Record ContactBody : Type := mkContactBody {
  b_query : option string;
  b_message : option string;
  b_maxPrice : option Q;
  b_minPrice : option Q;
  b_limit : option Q;
  b_distance : option Q;
  b_lat : option Q;
  b_lng : option Q
}.

Inductive route_out (A : Type) : Type :=
| Status400 (error : string)
| JsonOk (a : A).
Arguments Status400 {A} error.
Arguments JsonOk {A} a.

(** [{ ...item, chatFlow: { step1, step2 } }] *)
Record ContactItem : Type := mkContactItem {
  c_item : SearchItem;
  chat_step1 : string;
  chat_step2 : string
}.

Record ContactResult : Type := mkContactResult {
  c_items : list ContactItem;
  c_total : nat;
  c_nextPage : jval
}.

(** [Math.min(a, b)] on finite numbers. *)
Definition math_min (a b : Q) : Q := if Qle_bool a b then a else b.

Definition contact_params (query : string) (body : ContactBody) : SearchParams :=
  {| keywords := Some query;
     maxPrice := b_maxPrice body;
     minPrice := b_minPrice body;
     limit := Some (math_min (default_Q (b_limit body) 5) 20);
     distance := b_distance body;
     latitude := b_lat body;
     longitude := b_lng body;
     categoryId := None;
     orderBy := None;
     nextPage := None |}.

Definition chat_flow (message : string) (item : SearchItem) : ContactItem :=
  {| c_item := item;
     chat_step1 := "GET /api/items/hash?slug=" ++ js_to_string (si_slug item);
     chat_step2 := "POST /api/chat { itemHash: " ++ dq ++ "<hash>" ++ dq
                   ++ ", message: " ++ dq ++ message ++ dq ++ " }" |}.

(** The response built from the search result. *)
Definition contact_result (message : string) (results : SearchResult) : ContactResult :=
  let available := filter (fun i => negb (truthy (si_reserved i))) (sr_items results) in
  let items := map (chat_flow message) available in
  {| c_items := items; c_total := length items; c_nextPage := sr_nextPage results |}.

Definition search_and_contact (body : ContactBody) : prog (route_out ContactResult) :=
  match b_query body with
  | Some query =>
      if String.eqb query "" then Ret (Status400 "query required") else
      match b_message body with
      | Some message =>
          if String.eqb message "" then Ret (Status400 "message required") else
          results <- search (contact_params query body) ;;
          Ret (JsonOk (contact_result message results))
      | None => Ret (Status400 "message required")
      end
  | None => Ret (Status400 "query required")
  end.

(* ------------------------------------------------------------------ *)
(** ** Running a program against fixed upstream answers *)

Inductive outcome (A : Type) : Type :=
| Done (a : A)
| Failed (e : js_error).
Arguments Done {A} a.
Arguments Failed {A} e.

(** [api path query] answers JSON API calls, [page url] page fetches. *)
Fixpoint run {A} (api : string -> list (string * qval) -> response)
    (page : string -> response) (p : prog A) : outcome A :=
  match p with
  | Ret a => Done a
  | Throw e => Failed e
  | ApiGet path q _ k => run api page (k (api path q))
  | PageGet u _ k => run api page (k (page u))
  end.

Fixpoint assoc {A} (k : string) (l : list (string * A)) : option A :=
  match l with
  | [] => None
  | (k', v) :: r => if String.eqb k k' then Some v else assoc k r
  end.

(** Claim vocabulary: a URL scheme in the sense of RFC 3986,
    [ALPHA *( ALPHA / DIGIT / "+" / "-" / "." ) ":"], at the start. *)
Definition is_alpha (c : ascii) : bool :=
  let n := nat_of_ascii c in (Nat.leb 65 n && Nat.leb n 90) || (Nat.leb 97 n && Nat.leb n 122).

Fixpoint scheme_rest (s : string) : bool :=
  match s with
  | EmptyString => false
  | String c r =>
      if Ascii.eqb c ":"%char then true
      else if is_alpha c || is_digit c || Ascii.eqb c "+"%char
              || Ascii.eqb c "-"%char || Ascii.eqb c "."%char
      then scheme_rest r else false
  end.

Definition starts_with_url_scheme (s : string) : bool :=
  match s with
  | String c r => is_alpha c && scheme_rest r
  | EmptyString => false
  end.

(* ------------------------------------------------------------------ *)
(** ** The other client methods (server.ts) *)

(** [getItem]: [simplifyItemDetails] of the parsed body. *)
Definition getItem (itemId : string) : prog ItemDetails :=
  raw <- get ("/items/" ++ itemId) [] ;;
  of_option TypeError (simplifyItemDetails raw).

Definition getUser (userId : string) : prog jval := get ("/users/" ++ userId) [].

Definition getUserStats (userId : string) : prog jval :=
  get ("/users/" ++ userId ++ "/stats") [].

Definition getCategories : prog jval := get "/categories" [].

(** The options of [getUserItems]. *)
Record UserItemsOpts : Type := mkUserItemsOpts {
  ui_limit : option Q;
  ui_nextPage : option string
}.

(** [if (opts.limit) params.limit = opts.limit;
     if (opts.nextPage) params.next_page = opts.nextPage;] *)
Definition user_items_query (opts : UserItemsOpts) : list (string * qval) :=
  match ui_limit opts with
  | Some l => if num_truthy l then [("limit", QNum l)] else []
  | None => []
  end
  ++ str_field "next_page" (ui_nextPage opts).

Definition getUserItems (userId : string) (opts : UserItemsOpts) : prog jval :=
  get ("/users/" ++ userId ++ "/items") (user_items_query opts).

(** [getInbox] and [getConversation] call [fetch] directly, as
    [getItemHash] does: they are [PageGet] requests of a full URL. *)
Record InboxOpts : Type := mkInboxOpts {
  pageSize : option Q;
  maxMessages : option Q
}.

(** The application/x-www-form-urlencoded serialization of [String(n)]:
    of the characters it can hold (digits, [.], [-], [+], [e] and the
    letters of [Infinity]) only [+] is escaped. *)
Fixpoint plus_escape (s : string) : string :=
  match s with
  | EmptyString => EmptyString
  | String c r =>
      if Ascii.eqb c "+"%char then "%2B" ++ plus_escape r else String c (plus_escape r)
  end.

(** [url.searchParams.set] twice on a URL without a query gives
    [?page_size=..&max_messages=..] ([url.toString()] is what is fetched). *)
Definition inbox_url (opts : InboxOpts) : string :=
  "https://api.wallapop.com/bff/messaging/inbox"
  ++ "?page_size=" ++ plus_escape (num_to_string (default_Q (pageSize opts) 100))
  ++ "&max_messages=" ++ plus_escape (num_to_string (default_Q (maxMessages opts) 1)).

Definition bearer_headers (bearerToken : string) : list (string * string) :=
  [("Accept", "application/json, text/plain, */*");
   ("Authorization", "Bearer " ++ bearerToken);
   ("Referer", "https://es.wallapop.com/")].

Definition inbox_headers (bearerToken : string) : list (string * string) :=
  bearer_headers bearerToken
  ++ [("Accept-Language", "es,en-GB;q=0.9,en-US;q=0.8,en;q=0.7")].

(** [if (!res.ok) throw new Error(`<label> ${res.status}: ...`); return res.json();] *)
Definition json_or_error (label : string) (r : response) : prog jval :=
  match r with
  | NetFail => Throw NetworkError
  | Resp st body =>
      if status_ok st then of_option SyntaxError (json_parse body)
      else Throw (ErrorMsg (label ++ " " ++ Z_to_string st ++ ": " ++ body))
  end.

Definition getInbox (bearerToken : string) (opts : InboxOpts) : prog jval :=
  PageGet (inbox_url opts) (inbox_headers bearerToken) (json_or_error "Inbox").

Definition conversation_url (conversationId : string) : string :=
  "https://api.wallapop.com/bff/messaging/conversations/" ++ conversationId ++ "/messages".

Definition getConversation (bearerToken conversationId : string) : prog jval :=
  PageGet (conversation_url conversationId) (bearer_headers bearerToken)
    (json_or_error "Conversation").

(* ------------------------------------------------------------------ *)
(** ** The older JavaScript client (part_001) *)

Definition WALLAPOP_API : string := "https://api.wallapop.com/api/v3".

(** server.ts: [new URL(`${WALLAPOP_API}${path}`)]. *)
Definition api_url (path : string) : string := WALLAPOP_API ++ path.

(** part_001: [new URL(path, WALLAPOP_API)], the WHATWG resolution of a
    reference against the base, for references without dot segments,
    [?], [#] or [\]: [//...] keeps only the base's scheme, [/...]
    replaces the whole base path, anything else its last segment. *)
Definition api_url_part001 (path : string) : string :=
  if starts_with "//" path then "https:" ++ path
  else if starts_with "/" path then "https://api.wallapop.com" ++ path
  else "https://api.wallapop.com/api/" ++ path.

(** [search] of part_001: the defaults [latitude = DEFAULT_LAT],
    [longitude = DEFAULT_LNG] and [limit = 20] of the parameter list,
    then [if (latitude != null)] and the like in the body. *)
Definition search_query_part001 (params : SearchParams) : list (string * qval) :=
  let lat := match latitude params with Some q => q | None => DEFAULT_LAT end in
  let lng := match longitude params with Some q => q | None => DEFAULT_LNG end in
  let lim := match limit params with Some q => q | None => 20%Q end in
  [("step", QNum 1); ("source", QStr "keywords"); ("limit", QNum lim)]
  ++ (if str_truthy (nextPage params) then opt_field "next_page" (nextPage params) QStr
      else str_field "keywords" (keywords params)
           ++ opt_field "min_sale_price" (minPrice params) QNum
           ++ opt_field "max_sale_price" (maxPrice params) QNum
           ++ opt_field "distance" (distance params) QNum
           ++ opt_field "latitude" (Some lat) QNum
           ++ opt_field "longitude" (Some lng) QNum
           ++ opt_field "category_id" (categoryId params) QNum
           ++ str_field "order_by" (orderBy params)).

(** [getUserItems(userId, { limit = 20, nextPage } = {})] sends
    [{ limit, next_page: nextPage }], and [#get] skips [undefined]. *)
Definition user_items_query_part001 (opts : UserItemsOpts) : list (string * qval) :=
  [("limit", QNum (default_Q (ui_limit opts) 20))]
  ++ opt_field "next_page" (ui_nextPage opts) QStr.

(* ------------------------------------------------------------------ *)
(** ** The JavaScript builder and composite route (browser.ts) *)

Record ChatInstructionsJs : Type := mkChatInstructionsJs {
  js_chatUrl : string;
  js_message : string;
  js_steps : list ChatStep
}.

(** [buildChatInstructions({ itemHash, message })]: [itemHash] enters the
    two template literals through ToString. *)
Definition buildChatInstructions_js (itemHash : jval) (message : string) : ChatInstructionsJs :=
  {| js_chatUrl := "https://es.wallapop.com/app/chat?itemId=" ++ js_to_string itemHash;
     js_message := message;
     js_steps :=
       [ mkChatStep "navigate"
           (Some ("https://es.wallapop.com/app/chat?itemId=" ++ js_to_string itemHash))
           None None None "Opens chat thread with seller for this item";
         mkChatStep "snapshot" None None None None
           ("Wait for page load, find textbox " ++ dq ++ "Escribe un mensaje..." ++ dq);
         mkChatStep "click" None (Some ("textbox " ++ dq ++ "Escribe un mensaje..." ++ dq))
           None None "Focus the message input";
         mkChatStep "type" None None (Some message) (Some true)
           "Type message and press Enter to send";
         mkChatStep "snapshot" None None None None
           "Verify message appears in chat with timestamp" ] |}.

(** [x ? Number(x) : undefined] on a number or [undefined]. *)
Definition truthy_num (o : option Q) : option Q :=
  match o with Some q => if num_truthy q then Some q else None | None => None end.

(** The parameters the JavaScript [/api/search-and-contact] passes to the
    part_001 [search] (body fields are numbers or absent):
    [maxPrice ? Number(maxPrice) : undefined], ...,
    [limit: Math.min(Number(limit), 20)]. *)
Definition contact_params_js (query : string) (body : ContactBody) : SearchParams :=
  {| keywords := Some query;
     maxPrice := truthy_num (b_maxPrice body);
     minPrice := truthy_num (b_minPrice body);
     limit := Some (math_min (default_Q (b_limit body) 5) 20);
     distance := truthy_num (b_distance body);
     latitude := truthy_num (b_lat body);
     longitude := truthy_num (b_lng body);
     categoryId := None;
     orderBy := None;
     nextPage := None |}.

(* ------------------------------------------------------------------ *)
(** ** Route handlers and the error handler (server.ts) *)

(** What a request gets back: [res.json(a)], or
    [res.status(s).json({ error: m })]; [None] stands for the message of
    a TypeError, a SyntaxError or a failed [fetch], written by the engine. *)
Inductive http_reply (A : Type) : Type :=
| JsonReply (a : A)
| ErrorReply (status : Z) (error : option string).
Arguments JsonReply {A} a.
Arguments ErrorReply {A} status error.

Definition error_message (e : js_error) : option string :=
  match e with ErrorMsg m => Some m | _ => None end.

(** [const status = err.status || 500]: no error thrown by this code has
    a [status] property. *)
Definition error_handler {A} (e : js_error) : http_reply A :=
  ErrorReply 500 (error_message e).

(** A handler's [try]: its answer, or [next(err)] to the error handler. *)
Definition respond {A} (o : outcome (route_out A)) : http_reply A :=
  match o with
  | Done (JsonOk a) => JsonReply a
  | Done (Status400 m) => ErrorReply 400 (Some m)
  | Failed e => error_handler e
  end.

(** [GET /api/items/:id] *)
Definition items_route (id : string) : prog (route_out ItemDetails) :=
  d <- getItem id ;; Ret (JsonOk d).

(** The body of [POST /api/chat], as the handler declares it. *)
Record ChatBody : Type := mkChatBody {
  cb_itemUrl : option string;
  cb_itemHash : option string;
  cb_message : option string
}.

(** [res.json(buildChatInstructions(hash, message))]: [hash] enters the
    URLs through ToString and the [hash] field as it is. *)
Record ChatReply : Type := mkChatReply {
  reply_hash : jval;
  reply : ChatInstructions
}.

Definition chat_reply (hash : jval) (message : string) : ChatReply :=
  {| reply_hash := hash; reply := buildChatInstructions (js_to_string hash) message |}.

(** [res.json(buildChatInstructions(hash, message))]: the template
    literal of [chatUrl] applies ToString to [hash], which throws on an
    object with an own [toString] key (a TypeError, answered as a 500). *)
Definition chat_answer (hash : jval) (message : string) : prog (route_out ChatReply) :=
  if to_string_throws hash then Throw TypeError else Ret (JsonOk (chat_reply hash message)).

(** The handler once [providedHash] is known to be falsy:
    [if (!itemUrl && !providedHash) 400], then [await getItemHash(itemUrl!)]. *)
Definition chat_by_url (itemUrl : option string) (message : string) : prog (route_out ChatReply) :=
  match itemUrl with
  | Some u =>
      if String.eqb u "" then Ret (Status400 "itemUrl or itemHash required") else
      hash <- getItemHash u ;; chat_answer hash message
  | None => Ret (Status400 "itemUrl or itemHash required")
  end.

(** [POST /api/chat]: [providedHash || await client.getItemHash(itemUrl!)]. *)
Definition chat_route (body : ChatBody) : prog (route_out ChatReply) :=
  match cb_message body with
  | Some message =>
      if String.eqb message "" then Ret (Status400 "message required") else
      match cb_itemHash body with
      | Some h =>
          if String.eqb h "" then chat_by_url (cb_itemUrl body) message
          else chat_answer (JStr h) message
      | None => chat_by_url (cb_itemUrl body) message
      end
  | None => Ret (Status400 "message required")
  end.

(* ------------------------------------------------------------------ *)
(** ** Routing (Express; the same table in server.ts and browser.ts)

    A route path is a list of segments, [:name] matching one non-empty
    segment.  Express matches paths case-insensitively and allows one
    trailing slash.  Routes are tried in registration order, and every
    handler of these servers ends the request (it answers, or passes its
    error to the error handler), so the first matching route is the one
    that runs.  Parameters are kept as written (Express also
    percent-decodes them). *)

Inductive seg : Type :=
| SLit (s : string)
| SParam (name : string).

(** [s.split('/')] *)
Fixpoint split_slash (s : string) : list string :=
  match s with
  | EmptyString => [""]
  | String c r =>
      let rest := split_slash r in
      if Ascii.eqb c "/"%char then "" :: rest
      else match rest with
           | x :: xs => String c x :: xs
           | [] => [String c EmptyString]
           end
  end.

(** The segments after the leading ['/']. *)
Definition path_segments (path : string) : list string := tl (split_slash path).

Definition pattern_of (path : string) : list seg :=
  map (fun s => match s with
                | String ":" name => SParam name
                | _ => SLit s
                end) (path_segments path).

Definition lower_ascii (c : ascii) : ascii :=
  let n := nat_of_ascii c in
  if Nat.leb 65 n && Nat.leb n 90 then ascii_of_nat (n + 32) else c.

Fixpoint lower (s : string) : string :=
  match s with
  | EmptyString => EmptyString
  | String c r => String (lower_ascii c) (lower r)
  end.

Fixpoint match_segs (pat : list seg) (segs : list string) : option (list (string * string)) :=
  match pat, segs with
  | [], [] => Some []
  | [], [""] => Some []
  | SLit l :: pat', s :: segs' =>
      if String.eqb (lower l) (lower s) then match_segs pat' segs' else None
  | SParam n :: pat', s :: segs' =>
      if String.eqb s "" then None
      else option_map (cons (n, s)) (match_segs pat' segs')
  | _, _ => None
  end.

(** [app.get(...)] and [app.post(...)], in the order of the source. *)
Definition routes : list (string * string) :=
  [("GET", "/health"); ("GET", "/api/search"); ("GET", "/api/items/:id");
   ("GET", "/api/items/hash"); ("GET", "/api/users/:id");
   ("GET", "/api/users/:id/stats"); ("GET", "/api/users/:id/items");
   ("GET", "/api/categories"); ("POST", "/api/chat");
   ("POST", "/api/search-and-contact")].

(** The route that handles a request, with its parameters. *)
Fixpoint dispatch (table : list (string * string)) (method path : string)
    : option (string * list (string * string)) :=
  match table with
  | [] => None
  | (m, p) :: rest =>
      match (if String.eqb m method then match_segs (pattern_of p) (path_segments path) else None) with
      | Some ps => Some (p, ps)
      | None => dispatch rest method path
      end
  end.

(* ================================================================== *)
(** * Properties *)

(** ** The chat instruction builder *)

(** C2: [buildChatInstructions hash message] has exactly five steps,
    navigate / snapshot (wait for render) / click / type / snapshot, in
    this order; the navigate URL and [chatUrl] are both the chat base
    followed by [?itemId=<hash>]; the type step carries the message with
    [submit = true]. *)
Theorem buildChatInstructions_steps (hash message : string) :
  let ci := buildChatInstructions hash message in
  map action (steps ci) = ["navigate"; "snapshot"; "click"; "type"; "snapshot"] /\
  ci_chatUrl ci = "https://es.wallapop.com/app/chat" ++ "?itemId=" ++ hash /\
  ci_chatUrl ci = chatUrl hash /\
  option_map step_url (nth_error (steps ci) 0) = Some (Some (ci_chatUrl ci)) /\
  option_map text (nth_error (steps ci) 3) = Some (Some message) /\
  option_map submit (nth_error (steps ci) 3) = Some (Some true) /\
  ci_hash ci = hash /\ ci_message ci = message.
Proof.
  repeat split.
Qed.

Example buildChatInstructions_example :
  let ci := buildChatInstructions "qzmmv570nlzv" "Hola!" in
  ci_chatUrl ci = "https://es.wallapop.com/app/chat?itemId=qzmmv570nlzv" /\
  length (steps ci) = 5.
Proof. split; reflexivity. Qed.

(** ** The search query *)

Definition cursor_params : SearchParams :=
  {| keywords := Some "mesa"; minPrice := None; maxPrice := Some 50%Q;
     distance := None; latitude := None; longitude := None;
     categoryId := None; orderBy := None; limit := Some 10%Q;
     nextPage := Some "v2cursor" |}.

(** C3, as stated, fails: with a cursor the page-size [limit] is still
    sent alongside [next_page]. *)
Lemma search_cursor_sends_limit :
  nextPage cursor_params = Some "v2cursor" /\
  assoc "next_page" (search_query cursor_params) = Some (QStr "v2cursor") /\
  assoc "limit" (search_query cursor_params) = Some (QNum 10%Q).
Proof. repeat split. Qed.

(** C3 (amended): with a non-empty cursor, the query is exactly
    [step=1], [source=keywords], [limit] ([params.limit], default 20)
    and [next_page]; none of the filters is sent. *)
Theorem search_cursor_query (params : SearchParams) (np : string)
    (Hnp : nextPage params = Some np) (Hne : np <> "") :
  search_query params =
    [("step", QNum 1); ("source", QStr "keywords");
     ("limit", QNum (default_Q (limit params) 20)); ("next_page", QStr np)].
Proof.
  unfold search_query; rewrite Hnp.
  destruct (String.eqb_spec np "") as [E | _]; [contradiction | reflexivity].
Qed.

Lemma search_cursor_query_witness :
  cursor_params.(nextPage) = Some "v2cursor" /\ "v2cursor" <> "" /\
  search_query cursor_params =
    [("step", QNum 1); ("source", QStr "keywords");
     ("limit", QNum 10%Q); ("next_page", QStr "v2cursor")].
Proof.
  split; [reflexivity | split; [discriminate |]].
  exact (search_cursor_query cursor_params "v2cursor" eq_refl ltac:(discriminate)).
Defined.

(** ** The page URL of [getItemHash] *)

Definition upper_url : string := "HTTPS://es.wallapop.com/item/mesa-redonda-1232652380".

(** C7, as stated, fails: an input starting with the scheme [HTTPS:]
    is not used verbatim; the slug URL is built from it. *)
Lemma getItemHash_scheme_not_verbatim :
  starts_with_url_scheme upper_url = true /\
  first_page_url (getItemHash upper_url) = Some (item_page_base ++ upper_url) /\
  item_page_base ++ upper_url <> upper_url.
Proof.
  split; [reflexivity | split; [reflexivity | discriminate]].
Qed.

(** C7 (amended): an input starting with ["http"] is fetched verbatim;
    any other input is fetched as [https://es.wallapop.com/item/<input>]. *)
Theorem getItemHash_page_url (urlOrSlug : string) :
  (starts_with "http" urlOrSlug = true ->
     first_page_url (getItemHash urlOrSlug) = Some urlOrSlug) /\
  (starts_with "http" urlOrSlug = false ->
     first_page_url (getItemHash urlOrSlug) =
       Some ("https://es.wallapop.com/item/" ++ urlOrSlug)).
Proof.
  unfold getItemHash, item_full_url; simpl.
  split; intro H; rewrite H; reflexivity.
Qed.

Lemma getItemHash_page_url_witness :
  starts_with "http" "https://es.wallapop.com/item/mesa-1" = true /\
  first_page_url (getItemHash "https://es.wallapop.com/item/mesa-1")
    = Some "https://es.wallapop.com/item/mesa-1".
Proof.
  split; [reflexivity |].
  apply (proj1 (getItemHash_page_url "https://es.wallapop.com/item/mesa-1")).
  reflexivity.
Defined.

(** ** The two versions of [simplifyItemDetails] *)

(** C8: the two normalizers differ: on an item payload without any
    price field, server.ts gives price 0, part_001 leaves it
    [undefined]. *)
Theorem simplifyItemDetails_versions_differ :
  exists raw d1 d2,
    opt_path (prop raw "price") ["cash"; "amount"] = JUndef /\
    opt_get (prop raw "price") "amount" = JUndef /\
    simplifyItemDetails raw = Some d1 /\
    simplifyItemDetails_part001 raw = Some d2 /\
    d_price d1 = JNum 0 /\ d_price d2 = JUndef /\ d1 <> d2.
Proof.
  exists (JObj [("id", JStr "1232652380"); ("title", JStr "Mesa")]).
  eexists; eexists.
  repeat split; try reflexivity.
  intro E; apply (f_equal d_price) in E; discriminate E.
Qed.

(** ** Helper lemmas *)

Lemma js_nullish_left (a b : jval) : nullish a = true -> js_nullish a b = b.
Proof. destruct a; simpl; congruence. Qed.

Lemma js_or_falsy (a b : jval) : truthy a = false -> js_or a b = b.
Proof. unfold js_or; intros ->; reflexivity. Qed.

Lemma js_or_truthy (a b : jval) : truthy a = true -> js_or a b = a.
Proof. unfold js_or; intros ->; reflexivity. Qed.

Lemma run_bind {A B} api page (m : prog A) (f : A -> prog B) :
  run api page (bind m f) =
  match run api page m with Done a => run api page (f a) | Failed e => Failed e end.
Proof. induction m as [a | e | path q h k IH | u h k IH]; simpl; auto. Qed.

Lemma map_option_length {A B} (f : A -> option B) (l : list A) (l' : list B) :
  map_option f l = Some l' -> length l' = length l.
Proof.
  revert l'; induction l as [| x r IH]; simpl; intros l' H.
  - injection H as <-; reflexivity.
  - destruct (f x); [| discriminate].
    destruct (map_option f r) eqn:E; [| discriminate].
    injection H as <-; simpl; f_equal; apply IH; reflexivity.
Qed.

Lemma map_option_Forall2 {A B} (f : A -> option B) (l : list A) (l' : list B) :
  map_option f l = Some l' -> Forall2 (fun x y => f x = Some y) l l'.
Proof.
  revert l'; induction l as [| x r IH]; simpl; intros l' H.
  - injection H as <-; constructor.
  - destruct (f x) eqn:Fx; [| discriminate].
    destruct (map_option f r) eqn:E; [| discriminate].
    injection H as <-; constructor; [assumption | apply IH; reflexivity].
Qed.

Lemma map_option_total {A B} (f : A -> option B) (l : list A) :
  Forall (fun x => f x <> None) l -> exists l', map_option f l = Some l'.
Proof.
  induction 1 as [| x r Hx _ [l' IH]]; simpl.
  - eexists; reflexivity.
  - destruct (f x); [| contradiction]. rewrite IH. eexists; reflexivity.
Qed.

(** Programs that issue no page fetch. *)
Inductive api_only {A} : prog A -> Prop :=
| api_only_ret a : api_only (Ret a)
| api_only_throw e : api_only (Throw e)
| api_only_get path q h k : (forall r, api_only (k r)) -> api_only (ApiGet path q h k).

Lemma api_only_bind {A B} (m : prog A) (f : A -> prog B) :
  api_only m -> (forall a, api_only (f a)) -> api_only (bind m f).
Proof.
  intros Hm Hf; induction Hm; simpl; [apply Hf | constructor | constructor; auto].
Qed.

Lemma api_only_of_option {A} e (o : option A) : api_only (of_option e o).
Proof. destruct o; constructor. Qed.

Lemma api_only_search (params : SearchParams) : api_only (search params).
Proof.
  unfold search. apply api_only_bind.
  - unfold get; constructor; intros [| st body]; [constructor |].
    destruct (status_ok st); [apply api_only_of_option | constructor].
  - intro data; unfold search_result_of.
    destruct (js_or _ _); try constructor.
    apply api_only_bind; [apply api_only_of_option | intros; constructor].
Qed.

Lemma api_only_search_and_contact (body : ContactBody) : api_only (search_and_contact body).
Proof.
  unfold search_and_contact.
  destruct (b_query body) as [q |]; [| constructor].
  destruct (String.eqb q ""); [constructor |].
  destruct (b_message body) as [m |]; [| constructor].
  destruct (String.eqb m ""); [constructor |].
  apply api_only_bind; [apply api_only_search | intros; constructor].
Qed.

Lemma api_only_page_independent {A} api page page' (p : prog A) :
  api_only p -> run api page p = run api page' p.
Proof. induction 1; simpl; auto. Qed.

(** The result of a successful [search]. *)
Lemma run_search_done api page params r :
  run api page (search params) = Done r ->
  exists data l its,
    js_or (opt_path data ["data"; "section"; "payload"; "items"]) (JArr []) = JArr l /\
    map_option simplifySearchItem l = Some its /\
    r = {| sr_items := its;
           sr_nextPage := js_or (opt_path data ["meta"; "next_page"]) JNull;
           sr_total := length l |}.
Proof.
  unfold search; rewrite run_bind.
  destruct (run api page (get _ _)) as [data | e]; [| discriminate].
  unfold search_result_of.
  destruct (js_or _ (JArr [])) as [| | | | | l |] eqn:Items; simpl; try discriminate.
  rewrite run_bind.
  destruct (map_option simplifySearchItem l) as [its |] eqn:M; simpl; [| discriminate].
  intro H; injection H as <-.
  exists data, l, its; auto.
Qed.

(** ** [simplifyItemDetails] on any object *)

Definition obj_without_title : jval := JObj [("id", JStr "1232652380"); ("title", JNull)].

(** C4, as stated, fails: [typeof null === 'object'], so a [null]
    title is read as [null.original] and throws. *)
Lemma simplifyItemDetails_null_title :
  simplifyItemDetails obj_without_title = None.
Proof. reflexivity. Qed.

(** C4 (amended): on a JSON object, the server.ts [simplifyItemDetails]
    fails exactly when [title] or [description] is [null], or ToString
    of [web_slug] throws (an object with an own [toString] key, or an
    array holding one); otherwise
    it returns the details, with price 0 when neither [price.cash.amount]
    nor [price.amount] is set, counters [null] when [counters] is
    absent (or falsy), and images 0 when [images] is absent (or falsy). *)
Theorem simplifyItemDetails_object (fs : list (string * jval)) :
  let raw := JObj fs in
  (simplifyItemDetails raw = None <->
     prop raw "title" = JNull \/ prop raw "description" = JNull \/
     to_string_throws (prop raw "web_slug") = true) /\
  (forall d, simplifyItemDetails raw = Some d ->
     (nullish (opt_path (prop raw "price") ["cash"; "amount"]) = true ->
      nullish (opt_get (prop raw "price") "amount") = true ->
      d_price d = JNum 0) /\
     (truthy (prop raw "counters") = false -> d_counters d = JNull) /\
     (truthy (prop raw "images") = false -> d_images d = JNum 0)).
Proof.
  intro raw.
  assert (Hot : forall x, original_text x = None <-> x = JNull).
  { intros []; unfold original_text, get_prop; simpl; split; congruence. }
  unfold simplifyItemDetails; simpl nullish; cbv iota beta.
  split.
  - destruct (original_text (prop raw "title")) eqn:T;
      [destruct (original_text (prop raw "description")) eqn:D |].
    + destruct (to_string_throws (prop raw "web_slug")) eqn:W.
      * split; [intros _; right; right; reflexivity | reflexivity].
      * split; [discriminate |].
        intros [E | [E | E]]; [apply Hot in E | apply Hot in E |]; congruence.
    + split; [intros _; right; left; apply Hot; exact D | reflexivity].
    + split; [intros _; left; apply Hot; exact T | reflexivity].
  - intros d.
    destruct (original_text (prop raw "title")); [| discriminate].
    destruct (original_text (prop raw "description")); [| discriminate].
    destruct (to_string_throws (prop raw "web_slug")); [discriminate |].
    intro H; injection H as <-; simpl.
    split; [| split].
    + intros H1 H2. rewrite (js_nullish_left _ _ H1), (js_nullish_left _ _ H2). reflexivity.
    + apply js_or_falsy.
    + intro H. rewrite (js_or_falsy _ _ H). reflexivity.
Qed.

(** A [web_slug] object with its own [toString] key makes the URL's
    template literal throw. *)
Lemma simplifyItemDetails_toString_slug :
  simplifyItemDetails (JObj [("web_slug", JObj [("toString", JNum 0)])]) = None /\
  simplifySearchItem (JObj [("web_slug", JArr [JObj [("toString", JNum 0)]])]) = None.
Proof. split; reflexivity. Qed.

(** Number::toString on a few values: exponent form from [1e21] on and
    below [1e-6], shortest round-trip digits, rounding to the double. *)
Lemma num_to_string_samples :
  map num_to_string
    [1000000000000000000000; 1 # 10000000; 1 # 1000000; 3 # 10; 1 # 3;
     Qmake 12345678901234567890 1; 413891 # 10000; Qmake 1 (10 ^ 400);
     Qmake (10 ^ 400) 1; Qmake 3 (10 ^ 324); -1 # 2]%Q =
  ["1e+21"; "1e-7"; "0.000001"; "0.3"; "0.3333333333333333";
   "12345678901234567000"; "41.3891"; "0"; "Infinity"; "5e-324"; "-0.5"].
Proof. vm_compute; reflexivity. Qed.

Lemma simplifyItemDetails_object_witness :
  exists d, simplifyItemDetails (JObj []) = Some d /\
    d_price d = JNum 0 /\ d_counters d = JNull /\ d_images d = JNum 0.
Proof.
  eexists; split; [reflexivity |].
  destruct (proj2 (simplifyItemDetails_object []) _ eq_refl) as [P [C I]].
  split; [apply P; reflexivity | split; [apply C | apply I]; reflexivity].
Defined.

Lemma Forall2_in_right {A B} (P : A -> B -> Prop) l l' y :
  Forall2 P l l' -> In y l' -> exists x, In x l /\ P x y.
Proof.
  induction 1 as [| x y' r r' Hxy _ IH]; simpl; [contradiction |].
  intros [<- | Hin]; [exists x; auto |].
  destruct (IH Hin) as [x' [Hx' Px']]; exists x'; auto.
Qed.

Lemma js_or_false_falsy (a : jval) :
  truthy (js_or a (JBool false)) = false -> js_or a (JBool false) = JBool false.
Proof. unfold js_or; destruct (truthy a) eqn:T; [rewrite T; discriminate | reflexivity]. Qed.

(** A successful composite call: the message and the search result. *)
Lemma run_search_and_contact_done api page body c :
  run api page (search_and_contact body) = Done (JsonOk c) ->
  exists query message results,
    b_query body = Some query /\ b_message body = Some message /\
    run api page (search (contact_params query body)) = Done results /\
    c = contact_result message results.
Proof.
  unfold search_and_contact.
  destruct (b_query body) as [q |]; [| discriminate].
  destruct (String.eqb q ""); [discriminate |].
  destruct (b_message body) as [m |]; [| discriminate].
  destruct (String.eqb m ""); [discriminate |].
  rewrite run_bind.
  destruct (run api page (search _)) as [results | e] eqn:R; [| discriminate].
  simpl; intro H; injection H as <-.
  exists q, m, results; auto.
Qed.

(** ** Search normalization *)

Definition raw_empty_currency : jval :=
  JObj [("id", JStr "1232652380"); ("title", JStr "Mesa");
        ("price", JObj [("amount", JNum 50); ("currency", JStr "")]);
        ("web_slug", JStr "mesa-redonda-1232652380")].

Definition data_empty_currency : jval :=
  JObj [("data", JObj [("section", JObj [("payload",
          JObj [("items", JArr [raw_empty_currency])])])])].

(** C5, as stated, fails: a raw currency that is present but empty is
    replaced by ["EUR"]. *)
Lemma search_empty_currency_replaced :
  opt_get (prop raw_empty_currency "price") "currency" = JStr "" /\
  match search_result_of data_empty_currency with
  | Ret r => map si_currency (sr_items r) = [JStr "EUR"]
  | _ => False
  end.
Proof. split; reflexivity. Qed.

(** C5 (amended): a response whose items are an array of N non-null
    raw items, none with a [web_slug] whose ToString throws (an object
    with an own [toString] key, or an array holding one), gives exactly
    N search items; the currency of each is the
    raw [price.currency] when it is truthy (a non-empty string) and
    ["EUR"] otherwise (absent, [null] or empty). *)
Theorem search_normalization_count_currency (data : jval) (l : list jval)
    (Hitems : opt_path data ["data"; "section"; "payload"; "items"] = JArr l)
    (Hobj : Forall (fun x => nullish x = false) l)
    (Hslug : Forall (fun x => to_string_throws (prop x "web_slug") = false) l) :
  exists r, search_result_of data = Ret r /\
    length (sr_items r) = length l /\
    Forall2 (fun raw it =>
               let cur := opt_get (prop raw "price") "currency" in
               si_currency it = if truthy cur then cur else JStr "EUR")
            l (sr_items r).
Proof.
  destruct (map_option_total simplifySearchItem l) as [its Hits].
  { apply Forall_forall; intros x Hin.
    rewrite Forall_forall in Hobj, Hslug.
    unfold simplifySearchItem; rewrite (Hobj x Hin), (Hslug x Hin); discriminate. }
  unfold search_result_of; rewrite Hitems.
  change (js_or (JArr l) (JArr [])) with (JArr l); cbv iota beta.
  rewrite Hits; simpl.
  eexists; split; [reflexivity |]; simpl.
  split; [exact (map_option_length _ _ _ Hits) |].
  apply map_option_Forall2 in Hits.
  eapply Forall2_impl; [| exact Hits].
  intros raw it H; unfold simplifySearchItem in H.
  destruct (nullish raw); [discriminate |].
  destruct (to_string_throws (prop raw "web_slug")); [discriminate |].
  injection H as <-; reflexivity.
Qed.

Lemma search_normalization_count_currency_witness :
  opt_path data_empty_currency ["data"; "section"; "payload"; "items"] = JArr [raw_empty_currency] /\
  Forall (fun x => nullish x = false) [raw_empty_currency] /\
  Forall (fun x => to_string_throws (prop x "web_slug") = false) [raw_empty_currency] /\
  exists r, search_result_of data_empty_currency = Ret r /\ length (sr_items r) = 1.
Proof.
  split; [reflexivity | split; [repeat constructor | split; [repeat constructor |]]].
  destruct (search_normalization_count_currency data_empty_currency [raw_empty_currency]
              eq_refl ltac:(repeat constructor) ltac:(repeat constructor)) as [r [E [L _]]].
  exists r; split; [exact E | exact L].
Defined.

(** ** The composite search-and-contact call *)

(** C6: the composite call fetches no item page (it resolves no hash);
    each item it returns has [reserved] equal to [false] and carries the
    two follow-up steps, the hash lookup by slug and the chat request
    with the caller's message. *)
Theorem search_and_contact_items (api : string -> list (string * qval) -> response)
    (page : string -> response) (body : ContactBody) :
  api_only (search_and_contact body) /\
  forall c, run api page (search_and_contact body) = Done (JsonOk c) ->
    exists message, b_message body = Some message /\
    forall x, In x (c_items c) ->
      si_reserved (c_item x) = JBool false /\
      chat_step1 x = "GET /api/items/hash?slug=" ++ js_to_string (si_slug (c_item x)) /\
      chat_step2 x = "POST /api/chat { itemHash: " ++ dq ++ "<hash>" ++ dq
                     ++ ", message: " ++ dq ++ message ++ dq ++ " }".
Proof.
  split; [apply api_only_search_and_contact |].
  intros c H.
  destruct (run_search_and_contact_done _ _ _ _ H) as [q [m [results [_ [Hm [R ->]]]]]].
  exists m; split; [exact Hm |].
  destruct (run_search_done _ _ _ _ R) as [data [l [its [_ [M ->]]]]].
  apply map_option_Forall2 in M.
  intros x Hx; unfold contact_result in Hx; simpl in Hx.
  apply in_map_iff in Hx as [item [<- Hin]].
  apply filter_In in Hin as [Hin Hres].
  apply negb_true_iff in Hres.
  destruct (Forall2_in_right _ _ _ _ M Hin) as [raw [_ Hraw]].
  unfold simplifySearchItem in Hraw.
  destruct (nullish raw); [discriminate |].
  destruct (to_string_throws (prop raw "web_slug")); [discriminate |].
  injection Hraw as <-.
  simpl in *; split; [| split; reflexivity].
  apply js_or_false_falsy; exact Hres.
Qed.

(** C9: the composite call asks upstream for [Math.min(limit, 20)]
    items, [limit] defaulting to 5; that is at most 20. *)
Theorem search_and_contact_limit (body : ContactBody) (query message : string)
    (Hq : b_query body = Some query) (Hqn : query <> "")
    (Hm : b_message body = Some message) (Hmn : message <> "") :
  let lim := math_min (default_Q (b_limit body) 5) 20 in
  match search_and_contact body with
  | ApiGet path q _ _ => path = "/search" /\ assoc "limit" q = Some (QNum lim)
  | _ => False
  end /\
  (lim <= 20)%Q /\
  (b_limit body = None -> lim = 5%Q) /\
  (forall L, b_limit body = Some L ->
     ((L <= 20)%Q -> lim = L) /\ ((20 < L)%Q -> lim = 20%Q)).
Proof.
  intro lim.
  split; [| split; [| split]].
  - unfold search_and_contact; rewrite Hq.
    destruct (String.eqb_spec query "") as [E | _]; [contradiction |].
    rewrite Hm.
    destruct (String.eqb_spec message "") as [E | _]; [contradiction |].
    split; reflexivity.
  - unfold lim, math_min.
    destruct (Qle_bool _ _) eqn:E; [apply Qle_bool_iff; exact E | apply Qle_refl].
  - intro H; unfold lim; rewrite H; reflexivity.
  - intros L HL; unfold lim, math_min; rewrite HL; simpl.
    split; intro H.
    + apply Qle_bool_iff in H; rewrite H; reflexivity.
    + destruct (Qle_bool L 20) eqn:E; [| reflexivity].
      apply Qle_bool_iff in E. exfalso; apply (Qlt_not_le _ _ H E).
Qed.

Definition contact_body_big : ContactBody :=
  {| b_query := Some "mesa"; b_message := Some "Hola!"; b_maxPrice := Some 50%Q;
     b_minPrice := None; b_limit := Some 100%Q; b_distance := None;
     b_lat := None; b_lng := None |}.

Lemma search_and_contact_limit_witness :
  match search_and_contact contact_body_big with
  | ApiGet path q _ _ => path = "/search" /\ assoc "limit" q = Some (QNum 20)
  | _ => False
  end.
Proof.
  exact (proj1 (search_and_contact_limit contact_body_big "mesa" "Hola!"
                  eq_refl ltac:(discriminate) eq_refl ltac:(discriminate))).
Defined.

(** C10: [total] is the number of items in the same response: for
    [search] the items of the page, for the composite call the items
    left after dropping the reserved ones. *)
Theorem total_is_returned_count (api : string -> list (string * qval) -> response)
    (page : string -> response) :
  (forall params r, run api page (search params) = Done r ->
     sr_total r = length (sr_items r)) /\
  (forall body c, run api page (search_and_contact body) = Done (JsonOk c) ->
     c_total c = length (c_items c)).
Proof.
  split.
  - intros params r H.
    destruct (run_search_done _ _ _ _ H) as [data [l [its [_ [M ->]]]]].
    simpl; symmetry; exact (map_option_length _ _ _ M).
  - intros body c H.
    destruct (run_search_and_contact_done _ _ _ _ H) as [q [m [results [_ [_ [_ ->]]]]]].
    reflexivity.
Qed.

Definition no_pages (_ : string) : response := NetFail.

Definition qt (s : string) : string := dq ++ s ++ dq.

(** A small upstream search answer: one reserved item, one free item. *)
Definition sample_search_body : string :=
  "{" ++ qt "data" ++ ":{" ++ qt "section" ++ ":{" ++ qt "payload" ++ ":{"
  ++ qt "items" ++ ":["
  ++ "{" ++ qt "id" ++ ":" ++ qt "1" ++ "," ++ qt "web_slug" ++ ":" ++ qt "mesa-1"
  ++ "," ++ qt "reserved" ++ ":{" ++ qt "flag" ++ ":true}},"
  ++ "{" ++ qt "id" ++ ":" ++ qt "2" ++ "," ++ qt "web_slug" ++ ":" ++ qt "silla-2"
  ++ "," ++ qt "price" ++ ":{" ++ qt "amount" ++ ":25.5}}"
  ++ "]}}}," ++ qt "meta" ++ ":{" ++ qt "next_page" ++ ":" ++ qt "abc" ++ "}}".

Definition sample_api (_ : string) (_ : list (string * qval)) : response :=
  Resp 200 sample_search_body.

Definition sample_contact : ContactResult :=
  match run sample_api no_pages (search_and_contact contact_body_big) with
  | Done (JsonOk c) => c
  | _ => mkContactResult [] 0 JNull
  end.

Definition sample_search : SearchResult :=
  match run sample_api no_pages (search cursor_params) with
  | Done r => r
  | Failed _ => mkSearchResult [] JNull 0
  end.

Lemma search_and_contact_items_witness :
  run sample_api no_pages (search_and_contact contact_body_big) = Done (JsonOk sample_contact) /\
  length (c_items sample_contact) = 1 /\
  forall x, In x (c_items sample_contact) -> si_reserved (c_item x) = JBool false.
Proof.
  assert (R : run sample_api no_pages (search_and_contact contact_body_big)
              = Done (JsonOk sample_contact)) by (vm_compute; reflexivity).
  split; [exact R | split; [vm_compute; reflexivity |]].
  destruct (proj2 (search_and_contact_items sample_api no_pages contact_body_big)
              sample_contact R) as [m [_ H]].
  intros x Hx; exact (proj1 (H x Hx)).
Defined.

Lemma total_is_returned_count_witness :
  run sample_api no_pages (search cursor_params) = Done sample_search /\
  sr_total sample_search = length (sr_items sample_search) /\
  sr_total sample_search = 2.
Proof.
  assert (R : run sample_api no_pages (search cursor_params) = Done sample_search)
    by (vm_compute; reflexivity).
  split; [exact R | split; [| vm_compute; reflexivity]].
  exact (proj1 (total_is_returned_count sample_api no_pages) cursor_params sample_search R).
Defined.

(** ** The hash scraper *)

Fixpoint no_lt (s : string) : bool :=
  match s with
  | EmptyString => true
  | String c r => negb (Ascii.eqb c "<"%char) && no_lt r
  end.

Definition next_data_open : string := "<script " ++ id_attr ++ " " ++ type_attr.

Lemma span_no_lt (c s : string) :
  no_lt c = true ->
  span (fun ch => negb (Ascii.eqb ch "<"%char)) (c ++ String "<"%char s) = (c, String "<"%char s).
Proof.
  induction c as [| ch r IH]; simpl; [reflexivity |].
  intro H; apply andb_prop in H as [H1 H2].
  rewrite H1, (IH H2); reflexivity.
Qed.

Lemma next_data_match_unfold (s : string) :
  next_data_match s =
  match next_data_at s with
  | Some c => Some c
  | None => match s with EmptyString => None | String _ r => next_data_match r end
  end.
Proof. destruct s; reflexivity. Qed.

Lemma next_data_at_tag (c rest : string) (Hc : c <> "") (Hlt : no_lt c = true) :
  next_data_at (next_data_open ++ c ++ "</script>" ++ rest) = Some c.
Proof.
  unfold next_data_at, eat, eat_spaces, next_data_open, id_attr, type_attr, dq; simpl.
  rewrite (span_no_lt c _ Hlt).
  destruct (String.eqb_spec c "") as [E | _]; [contradiction | reflexivity].
Qed.

(** The first [__NEXT_DATA__] tag is found when nothing before it
    contains a ['<']. *)
Lemma next_data_match_tag (pre c rest : string)
    (Hpre : no_lt pre = true) (Hc : c <> "") (Hlt : no_lt c = true) :
  next_data_match (pre ++ next_data_open ++ c ++ "</script>" ++ rest) = Some c.
Proof.
  induction pre as [| ch p IH].
  - change (next_data_match (next_data_open ++ c ++ "</script>" ++ rest) = Some c).
    rewrite next_data_match_unfold, (next_data_at_tag c rest Hc Hlt). reflexivity.
  - change (next_data_match (String ch (p ++ next_data_open ++ c ++ "</script>" ++ rest)) = Some c).
    rewrite next_data_match_unfold.
    simpl in Hpre; apply andb_prop in Hpre as [H1 H2].
    assert (Hat : next_data_at (String ch (p ++ next_data_open ++ c ++ "</script>" ++ rest)) = None).
    { assert (E : Ascii.eqb "<"%char ch = false)
        by (rewrite Ascii.eqb_sym; apply negb_true_iff; exact H1).
      unfold next_data_at, eat; cbn [starts_with]; rewrite E; reflexivity. }
    rewrite Hat; apply IH; exact H2.
Qed.

(** C1 (amended): on any fetched page (whatever its status) [getItemHash]
    throws its own "could not find" error when the pattern does not
    match; the SyntaxError of [JSON.parse] when the captured text is not
    JSON; its own "could not extract" error when the value at
    [props.pageProps.item.id] is absent or falsy ([""], [false], [null],
    or a number whose double is zero: [0], but also [1e-400]); and
    otherwise returns that value.  The pattern's [\s] is JavaScript's
    (Unicode white space and line terminators). *)
Theorem getItemHash_outcomes (api : string -> list (string * qval) -> response)
    (page : string -> response) (urlOrSlug : string) (st : Z) (html : string)
    (Hpage : page (item_full_url urlOrSlug) = Resp st html) :
  let res := run api page (getItemHash urlOrSlug) in
  (next_data_match html = None ->
     res = Failed (ErrorMsg "Could not find __NEXT_DATA__ in page")) /\
  (forall c, next_data_match html = Some c -> json_parse c = None ->
     res = Failed SyntaxError) /\
  (forall c v, next_data_match html = Some c -> json_parse c = Some v ->
     truthy (opt_path v hash_path) = false ->
     res = Failed (ErrorMsg "Could not extract item hash from page data")) /\
  (forall c v, next_data_match html = Some c -> json_parse c = Some v ->
     truthy (opt_path v hash_path) = true ->
     res = Done (opt_path v hash_path)).
Proof.
  intro res; unfold res, getItemHash; cbn [run]; rewrite Hpage.
  unfold hash_of_page.
  split; [| split; [| split]].
  - intros ->; reflexivity.
  - intros c -> ->; reflexivity.
  - intros c v -> -> T; cbv zeta; rewrite T; reflexivity.
  - intros c v -> -> T; cbv zeta; rewrite T; reflexivity.
Qed.

Definition item_json (id_literal : string) : string :=
  "{" ++ qt "props" ++ ":{" ++ qt "pageProps" ++ ":{" ++ qt "item" ++ ":{"
  ++ qt "id" ++ ":" ++ id_literal ++ "}}}}".

Definition item_page (id_literal : string) : string :=
  "<html><head></head><body>" ++ next_data_open ++ item_json id_literal
  ++ "</script></body></html>".

Definition page_of (html : string) (_ : string) : response := Resp 200 html.

(** C1, as stated, fails: the tag is there, its text is JSON and the
    identifier is present at [props.pageProps.item.id], but it is the
    empty string, and [getItemHash] throws instead of returning it. *)
Lemma getItemHash_empty_id_rejected :
  next_data_match (item_page (qt "")) = Some (item_json (qt "")) /\
  option_map (fun v => opt_path v hash_path) (json_parse (item_json (qt ""))) = Some (JStr "") /\
  run sample_api (page_of (item_page (qt ""))) (getItemHash "mesa-redonda-1232652380")
    = Failed (ErrorMsg "Could not extract item hash from page data").
Proof. split; [| split]; vm_compute; reflexivity. Qed.

(** A number literal that rounds to zero is falsy. *)
Lemma getItemHash_underflow_id_rejected :
  run sample_api (page_of (item_page "1e-400")) (getItemHash "mesa-redonda-1232652380")
    = Failed (ErrorMsg "Could not extract item hash from page data").
Proof. vm_compute; reflexivity. Qed.

(** The tag's attributes may be separated by non-ASCII white space
    (here U+00A0 and U+2028). *)
Definition unicode_spaced_page : string :=
  "<html><body><script" ++ bytes [194; 160] ++ id_attr ++ bytes [226; 128; 168]
  ++ type_attr ++ item_json (qt "qzmmv570nlzv") ++ "</script></body></html>".

Lemma getItemHash_unicode_spaces :
  run sample_api (page_of unicode_spaced_page) (getItemHash "mesa-redonda-1232652380")
    = Done (JStr "qzmmv570nlzv").
Proof. vm_compute; reflexivity. Qed.

Lemma getItemHash_outcomes_witness :
  run sample_api (page_of (item_page (qt "qzmmv570nlzv")))
      (getItemHash "mesa-redonda-1232652380") = Done (JStr "qzmmv570nlzv").
Proof.
  apply (proj2 (proj2 (proj2 (getItemHash_outcomes sample_api
           (page_of (item_page (qt "qzmmv570nlzv"))) "mesa-redonda-1232652380" 200
           (item_page (qt "qzmmv570nlzv")) eq_refl)))
         (item_json (qt "qzmmv570nlzv"))
         (JObj [("props", JObj [("pageProps", JObj [("item",
            JObj [("id", JStr "qzmmv570nlzv")])])])])).
  - vm_compute; reflexivity.
  - vm_compute; reflexivity.
  - vm_compute; reflexivity.
Defined.

(* ================================================================== *)
(** * Further properties of the code *)

(** ** Helpers *)

(** A program that answers without any further request. *)
Definition ends_request {A} (p : prog A) : bool :=
  match p with Ret _ | Throw _ => true | _ => false end.

Lemma ends_request_of_option {A} e (o : option A) : ends_request (of_option e o) = true.
Proof. destruct o; reflexivity. Qed.

Lemma assoc_app {A} (k : string) (l1 l2 : list (string * A)) :
  assoc k (l1 ++ l2) = match assoc k l1 with Some v => Some v | None => assoc k l2 end.
Proof.
  induction l1 as [| [k' v] r IH]; simpl; [reflexivity |].
  destruct (String.eqb k k'); [reflexivity | exact IH].
Qed.

Lemma assoc_opt_field {A} (k k' : string) (o : option A) (f : A -> qval) :
  assoc k (opt_field k' o f) = if String.eqb k k' then option_map f o else None.
Proof. destruct o; simpl; [| destruct (String.eqb k k')]; reflexivity. Qed.

Lemma assoc_str_field (k k' : string) (o : option string) :
  assoc k (str_field k' o) =
  if String.eqb k k' then (if str_truthy o then option_map QStr o else None) else None.
Proof.
  destruct o as [s |]; simpl; [| destruct (String.eqb k k'); reflexivity].
  destruct (String.eqb s ""); simpl; destruct (String.eqb k k'); reflexivity.
Qed.

Lemma search_query_part001_eq (params : SearchParams) :
  search_query_part001 params = search_query params.
Proof.
  unfold search_query_part001, search_query, search_filters, default_Q, str_truthy.
  destruct (nextPage params) as [np |]; simpl; [| reflexivity].
  destruct (String.eqb np ""); reflexivity.
Qed.

Definition drop_zero_filters (body : ContactBody) : ContactBody :=
  {| b_query := b_query body;
     b_message := b_message body;
     b_maxPrice := truthy_num (b_maxPrice body);
     b_minPrice := truthy_num (b_minPrice body);
     b_limit := b_limit body;
     b_distance := truthy_num (b_distance body);
     b_lat := truthy_num (b_lat body);
     b_lng := truthy_num (b_lng body) |}.

(** ** [search]: one request, errors, empty results *)

(** X1: [search] issues exactly one request, [GET /search] with the
    built query and the fixed headers, and answers without a retry; a
    non-2xx answer fails with "Wallapop API <status>: <body>" whatever
    the body, and a 2xx answer whose body is not JSON fails with the
    SyntaxError of [res.json()]. *)
Theorem search_one_request (params : SearchParams) api page (st : Z) (body : string)
    (Hapi : api "/search" (search_query params) = Resp st body) :
  (exists k, search params = ApiGet "/search" (search_query params) REQUIRED_HEADERS k /\
             forall r, ends_request (k r) = true) /\
  (status_ok st = false ->
     run api page (search params) = Failed (ErrorMsg ("Wallapop API " ++ Z_to_string st ++ ": " ++ body))) /\
  (status_ok st = true -> json_parse body = None ->
     run api page (search params) = Failed SyntaxError).
Proof.
  split; [| split].
  - eexists; split; [reflexivity |].
    intros [| s b]; simpl; [reflexivity |].
    destruct (status_ok s); simpl; [| reflexivity].
    destruct (json_parse b) as [data |]; simpl; [| reflexivity].
    unfold search_result_of; destruct (js_or _ _); try reflexivity.
    simpl; destruct (map_option simplifySearchItem _); reflexivity.
  - intro Hst; unfold search, get; simpl; rewrite Hapi, Hst; reflexivity.
  - intros Hst Hj; unfold search, get; simpl; rewrite Hapi, Hst, Hj; reflexivity.
Qed.

(** X2: when the parsed answer has no item list (the path
    [data.section.payload.items] is absent or falsy), [search] succeeds
    with no items and a total of 0, and [nextPage] is [null] when
    [meta.next_page] is absent or falsy too. *)
Theorem search_without_items (params : SearchParams) api page (st : Z) (body : string) (data : jval)
    (Hapi : api "/search" (search_query params) = Resp st body)
    (Hst : status_ok st = true) (Hj : json_parse body = Some data)
    (Hitems : truthy (opt_path data ["data"; "section"; "payload"; "items"]) = false) :
  run api page (search params) =
    Done {| sr_items := []; sr_nextPage := js_or (opt_path data ["meta"; "next_page"]) JNull;
            sr_total := 0 |} /\
  (truthy (opt_path data ["meta"; "next_page"]) = false ->
     exists r, run api page (search params) = Done r /\ sr_nextPage r = JNull).
Proof.
  assert (R : run api page (search params) =
    Done {| sr_items := []; sr_nextPage := js_or (opt_path data ["meta"; "next_page"]) JNull;
            sr_total := 0 |}).
  { unfold search, get; simpl; rewrite Hapi, Hst, Hj; simpl.
    unfold search_result_of; rewrite (js_or_falsy _ _ Hitems); reflexivity. }
  split; [exact R |].
  intro Hnp; eexists; split; [exact R |]; simpl.
  apply js_or_falsy; exact Hnp.
Qed.

(** X3: the [nextPage] of any successful [search] is [null] or a truthy
    value: an empty-string, [0], [false] or missing cursor is never passed
    on. *)
Theorem search_nextPage_null_or_truthy api page (params : SearchParams) (r : SearchResult)
    (H : run api page (search params) = Done r) :
  sr_nextPage r = JNull \/ truthy (sr_nextPage r) = true.
Proof.
  destruct (run_search_done api page params r H) as (data & l & its & _ & _ & ->); cbn [sr_nextPage].
  unfold js_or; destruct (truthy (opt_path data ["meta"; "next_page"])) eqn:T.
  - right; rewrite T; reflexivity.
  - left; reflexivity.
Qed.

(** X4: without a truthy cursor, the query of [search] always carries
    [latitude] and [longitude] (Barcelona, 41.3891 / 2.1606, when not
    given), never [next_page]; price bounds are sent whenever they are
    defined, 0 included, and [keywords] only when non-empty. *)
Theorem search_query_fresh (params : SearchParams)
    (Hnp : str_truthy (nextPage params) = false) :
  let q := search_query params in
  assoc "latitude" q = Some (QNum (default_Q (latitude params) DEFAULT_LAT)) /\
  assoc "longitude" q = Some (QNum (default_Q (longitude params) DEFAULT_LNG)) /\
  assoc "next_page" q = None /\
  assoc "min_sale_price" q = option_map QNum (minPrice params) /\
  assoc "max_sale_price" q = option_map QNum (maxPrice params) /\
  assoc "keywords" q = (if str_truthy (keywords params) then option_map QStr (keywords params) else None).
Proof.
  intro q.
  assert (Hq : q = app [("step", QNum 1); ("source", QStr "keywords");
                        ("limit", QNum (default_Q (limit params) 20))] (search_filters params)).
  { unfold q, search_query; unfold str_truthy in Hnp.
    destruct (nextPage params) as [np |]; [| reflexivity].
    destruct (String.eqb np "") eqn:E; [reflexivity | discriminate]. }
  rewrite Hq; unfold search_filters.
  rewrite !assoc_app, !assoc_str_field, !assoc_opt_field; simpl; unfold str_truthy.
  repeat split;
    (destruct (keywords params) as [k |]; [destruct (String.eqb k "") |]);
    destruct (minPrice params), (maxPrice params), (distance params); reflexivity.
Qed.

(** ** The two clients and the two composite routes *)

(** X5: the part_001 [search] builds the same query as server.ts's for
    every parameter object, but [new URL('/search', WALLAPOP_API)] drops
    the [/api/v3] prefix: part_001 requests https://api.wallapop.com/search
    where server.ts requests https://api.wallapop.com/api/v3/search. *)
Theorem search_query_versions_agree (params : SearchParams) :
  search_query_part001 params = search_query params /\
  api_url_part001 "/search" = "https://api.wallapop.com/search" /\
  api_url "/search" = "https://api.wallapop.com/api/v3/search".
Proof.
  split; [apply search_query_part001_eq | split; reflexivity].
Qed.

(** X6: the JavaScript [/api/search-and-contact] passes the part_001
    [search] parameters whose query is the one the TypeScript route sends
    for the body whose [maxPrice], [minPrice], [distance], [lat] and
    [lng] are dropped when falsy ([x ? Number(x) : undefined]): a
    latitude or longitude of 0 falls back to Barcelona's, a price bound
    of 0 is not sent.  (The two clients send it to different URLs, X5.) *)
Theorem search_and_contact_js_query (query : string) (body : ContactBody) :
  search_query_part001 (contact_params_js query body) =
  search_query (contact_params query (drop_zero_filters body)).
Proof.
  rewrite search_query_part001_eq; reflexivity.
Qed.

(** X7: the two versions of [getUserItems] send the same query exactly
    when a truthy [limit] is given and [nextPage] is not the empty
    string: server.ts sends no [limit] at all by default (part_001 sends
    20), drops a [limit] of 0 ([if (opts.limit)]), and drops an empty
    cursor that part_001 sends. *)
Theorem user_items_query_versions_agree (opts : UserItemsOpts) :
  user_items_query opts = user_items_query_part001 opts <->
  (exists l, ui_limit opts = Some l /\ num_truthy l = true) /\ ui_nextPage opts <> Some "".
Proof.
  unfold user_items_query, user_items_query_part001.
  split.
  - intro Hq.
    destruct (ui_limit opts) as [l |]; [destruct (num_truthy l) eqn:Z0 |];
      destruct (ui_nextPage opts) as [s |]; simpl in Hq;
      try (destruct (String.eqb s "") eqn:Es); try discriminate.
    + split; [exists l; split; [reflexivity | exact Z0] |].
      apply String.eqb_neq in Es; congruence.
    + split; [exists l; split; [reflexivity | exact Z0] | discriminate].
  - intros [[l [Hl Z0]] Hnp]; rewrite Hl, Z0; simpl.
    destruct (ui_nextPage opts) as [s |]; simpl; [| reflexivity].
    destruct (String.eqb_spec s "") as [-> | _]; [contradiction | reflexivity].
Qed.

(** X8: the JavaScript [buildChatInstructions({ itemHash, message })]
    gives the same chat URL, message and five steps as the TypeScript
    [buildChatInstructions(itemHash, message)] (on the ToString of the
    hash), and its URL is [client.chatUrl] of it. *)
Theorem buildChatInstructions_js_agrees (itemHash : jval) (message : string) :
  let ts := buildChatInstructions (js_to_string itemHash) message in
  let js := buildChatInstructions_js itemHash message in
  js_chatUrl js = ci_chatUrl ts /\ js_chatUrl js = chatUrl (js_to_string itemHash) /\
  js_message js = ci_message ts /\ js_steps js = steps ts.
Proof. repeat split. Qed.

(** X9: a valid [/api/search-and-contact] body always starts a fresh
    search: one [GET /search] with [keywords] = the query, latitude and
    longitude (Barcelona's when absent), and never [next_page],
    [category_id] or [order_by]. *)
Theorem search_and_contact_fresh_search (body : ContactBody) (query message : string)
    (Hq : b_query body = Some query) (Hq' : query <> "")
    (Hm : b_message body = Some message) (Hm' : message <> "") :
  let q := search_query (contact_params query body) in
  (exists k, search_and_contact body = ApiGet "/search" q REQUIRED_HEADERS k) /\
  assoc "keywords" q = Some (QStr query) /\
  assoc "next_page" q = None /\
  assoc "category_id" q = None /\
  assoc "order_by" q = None /\
  assoc "latitude" q = Some (QNum (default_Q (b_lat body) DEFAULT_LAT)) /\
  assoc "longitude" q = Some (QNum (default_Q (b_lng body) DEFAULT_LNG)).
Proof.
  intro q.
  apply String.eqb_neq in Hq', Hm'.
  split.
  - unfold search_and_contact; rewrite Hq, Hq', Hm, Hm'; eexists; reflexivity.
  - unfold q, search_query, search_filters; cbn [nextPage contact_params].
    rewrite !assoc_app, !assoc_str_field, !assoc_opt_field; cbn [contact_params
      keywords minPrice maxPrice distance latitude longitude categoryId orderBy].
    unfold str_truthy; rewrite Hq'; simpl.
    destruct (b_minPrice body), (b_maxPrice body), (b_distance body); repeat split.
Qed.

(** ** Route handlers *)

(** X10: [GET /api/items/:id] forwards the upstream failure as a 500:
    a non-2xx answer of [/items/<id>] (404 included) becomes status 500
    with the message "Wallapop API <status>: <body>"; a 2xx [null] body
    becomes a 500 (TypeError); a 2xx body on which [simplifyItemDetails]
    throws (a [null] title or description, a [web_slug] whose ToString
    throws) becomes a 500 (TypeError); any other 2xx JSON body is
    answered with its [simplifyItemDetails]. *)
Theorem items_route_replies api page (id : string) (st : Z) (body : string)
    (Hapi : api ("/items/" ++ id) [] = Resp st body) :
  (status_ok st = false ->
     respond (run api page (items_route id)) =
       ErrorReply 500 (Some ("Wallapop API " ++ Z_to_string st ++ ": " ++ body))) /\
  (status_ok st = true -> json_parse body = Some JNull ->
     respond (run api page (items_route id)) = ErrorReply 500 None) /\
  (forall raw d, status_ok st = true -> json_parse body = Some raw ->
     simplifyItemDetails raw = Some d ->
     respond (run api page (items_route id)) = JsonReply d) /\
  (forall raw, status_ok st = true -> json_parse body = Some raw ->
     simplifyItemDetails raw = None ->
     respond (run api page (items_route id)) = ErrorReply 500 None).
Proof.
  unfold items_route, getItem, get; cbn [bind run]; rewrite Hapi.
  split; [| split; [| split]].
  - intro Hst; rewrite Hst; reflexivity.
  - intros Hst Hj; rewrite Hst, Hj; reflexivity.
  - intros raw d Hst Hj Hd; rewrite Hst, Hj; cbn [of_option bind run].
    rewrite Hd; reflexivity.
  - intros raw Hst Hj Hd; rewrite Hst, Hj; cbn [of_option bind run].
    rewrite Hd; reflexivity.
Qed.

Lemma chat_route_by_url (body : ChatBody) (message : string)
    (Hm : cb_message body = Some message) (Hm' : message <> "")
    (Hh : str_truthy (cb_itemHash body) = false) :
  chat_route body = chat_by_url (cb_itemUrl body) message.
Proof.
  apply String.eqb_neq in Hm'.
  unfold chat_route; rewrite Hm, Hm'.
  unfold str_truthy in Hh; destruct (cb_itemHash body) as [h |]; [| reflexivity].
  destruct (String.eqb h ""); [reflexivity | discriminate].
Qed.

(** X11: [POST /api/chat] answers 400 "message required" when the
    message is missing or empty, whatever else the body holds, and 400
    "itemUrl or itemHash required" when neither a non-empty URL nor a
    non-empty hash is given; in both cases no request is made. *)
Theorem chat_route_rejects (body : ChatBody) :
  (str_truthy (cb_message body) = false ->
     chat_route body = Ret (Status400 "message required")) /\
  (str_truthy (cb_message body) = true -> str_truthy (cb_itemHash body) = false ->
     str_truthy (cb_itemUrl body) = false ->
     chat_route body = Ret (Status400 "itemUrl or itemHash required")).
Proof.
  split.
  - unfold chat_route, str_truthy; destruct (cb_message body) as [m |]; [| reflexivity].
    destruct (String.eqb m ""); [reflexivity | discriminate].
  - intros Hm Hh Hu.
    unfold str_truthy in Hm; destruct (cb_message body) as [m |] eqn:Em; [| discriminate].
    assert (Hm' : m <> "") by (intro E; subst m; discriminate).
    rewrite (chat_route_by_url body m Em Hm' Hh).
    unfold chat_by_url, str_truthy in *; destruct (cb_itemUrl body) as [u |]; [| reflexivity].
    destruct (String.eqb u ""); [reflexivity | discriminate].
Qed.

(** X12: with a non-empty [itemHash] and message, [POST /api/chat]
    makes no request (not even when [itemUrl] is also given) and answers
    with [buildChatInstructions(itemHash, message)]. *)
Theorem chat_route_provided_hash (body : ChatBody) (message h : string)
    (Hm : cb_message body = Some message) (Hm' : message <> "")
    (Hh : cb_itemHash body = Some h) (Hh' : h <> "") :
  chat_route body = Ret (JsonOk (chat_reply (JStr h) message)) /\
  chat_reply (JStr h) message = {| reply_hash := JStr h; reply := buildChatInstructions h message |}.
Proof.
  apply String.eqb_neq in Hm', Hh'.
  split; [unfold chat_route; rewrite Hm, Hm', Hh, Hh'; reflexivity | reflexivity].
Qed.

(** X13: without a hash, [POST /api/chat] fetches the item page of
    [itemUrl] (the slug completed to https://es.wallapop.com/item/...),
    and when the page's [__NEXT_DATA__] holds a truthy
    [props.pageProps.item.id] it answers with the instructions for that
    id, unless ToString of the id throws (an object with an own
    [toString] key, or an array holding one): then the route fails with
    a TypeError. *)
Theorem chat_route_scrapes_hash api page (body : ChatBody) (u message : string)
    (st : Z) (html c : string) (v : jval)
    (Hm : cb_message body = Some message) (Hm' : message <> "")
    (Hh : str_truthy (cb_itemHash body) = false)
    (Hu : cb_itemUrl body = Some u) (Hu' : u <> "")
    (Hpage : page (item_full_url u) = Resp st html)
    (Hc : next_data_match html = Some c) (Hv : json_parse c = Some v)
    (Ht : truthy (opt_path v hash_path) = true) :
  first_page_url (chat_route body) = Some (item_full_url u) /\
  (to_string_throws (opt_path v hash_path) = false ->
   run api page (chat_route body) = Done (JsonOk (chat_reply (opt_path v hash_path) message))) /\
  (to_string_throws (opt_path v hash_path) = true ->
   run api page (chat_route body) = Failed TypeError).
Proof.
  rewrite (chat_route_by_url body message Hm Hm' Hh), Hu.
  apply String.eqb_neq in Hu'; unfold chat_by_url; rewrite Hu'.
  split; [reflexivity |].
  rewrite run_bind; unfold getItemHash; cbn [run]; rewrite Hpage.
  unfold hash_of_page; rewrite Hc, Hv; cbv zeta; rewrite Ht.
  cbn [run]; unfold chat_answer; split; intro T; rewrite T; reflexivity.
Qed.

(** ** The messaging calls *)

(** X14: [getInbox] and [getConversation] never use the API client:
    one direct fetch of their URL with [Authorization: Bearer <token>]
    and without the API's [Host] header; by default the inbox URL asks
    for [page_size=100] and [max_messages=1]; a non-2xx answer fails
    with "Inbox <status>: <body>" (resp. "Conversation ..."). *)
Theorem messaging_requests (token cid : string) (opts : InboxOpts) api api' page (st : Z) (body : string)
    (Hst : status_ok st = false) :
  run api page (getInbox token opts) = run api' page (getInbox token opts) /\
  run api page (getConversation token cid) = run api' page (getConversation token cid) /\
  match getInbox token opts with
  | PageGet u h _ => u = inbox_url opts /\ assoc "Authorization" h = Some ("Bearer " ++ token) /\
                     assoc "Host" h = None
  | _ => False
  end /\
  match getConversation token cid with
  | PageGet u h _ => u = conversation_url cid /\ assoc "Authorization" h = Some ("Bearer " ++ token) /\
                     assoc "Host" h = None
  | _ => False
  end /\
  inbox_url (mkInboxOpts None None) =
    "https://api.wallapop.com/bff/messaging/inbox?page_size=100&max_messages=1" /\
  (page (inbox_url opts) = Resp st body ->
     run api page (getInbox token opts) = Failed (ErrorMsg ("Inbox " ++ Z_to_string st ++ ": " ++ body))) /\
  (page (conversation_url cid) = Resp st body ->
     run api page (getConversation token cid) =
       Failed (ErrorMsg ("Conversation " ++ Z_to_string st ++ ": " ++ body))).
Proof.
  split; [unfold getInbox; cbn [run];
          destruct (page (inbox_url opts)) as [| s b]; simpl; [reflexivity |];
          destruct (status_ok s); [destruct (json_parse b) |]; reflexivity |].
  split; [unfold getConversation; cbn [run];
          destruct (page (conversation_url cid)) as [| s b]; simpl; [reflexivity |];
          destruct (status_ok s); [destruct (json_parse b) |]; reflexivity |].
  split; [repeat split |].
  split; [repeat split |].
  split; [reflexivity |].
  split.
  - intro Hp; unfold getInbox; cbn [run]; rewrite Hp; simpl; rewrite Hst; reflexivity.
  - intro Hp; unfold getConversation; cbn [run]; rewrite Hp; simpl; rewrite Hst; reflexivity.
Qed.

(** ** Routing *)

Lemma dispatch_app (t1 t2 : list (string * string)) (method path : string) :
  dispatch (t1 ++ t2) method path =
  match dispatch t1 method path with Some x => Some x | None => dispatch t2 method path end.
Proof.
  induction t1 as [| [m p] r IH]; simpl; [reflexivity |].
  destruct (if String.eqb m method then _ else None); [reflexivity | exact IH].
Qed.

Lemma dispatch_in (t : list (string * string)) (method path r : string) ps :
  dispatch t method path = Some (r, ps) -> In r (map snd t).
Proof.
  induction t as [| [m p] t IH]; simpl; [discriminate |].
  destruct (if String.eqb m method then _ else None).
  - intro H; injection H as <- _; left; reflexivity.
  - intro H; right; exact (IH H).
Qed.

Lemma hash_pattern_matches_id (segs : list string) ps :
  match_segs [SLit "api"; SLit "items"; SLit "hash"] segs = Some ps ->
  match_segs [SLit "api"; SLit "items"; SParam "id"] segs <> None.
Proof.
  intro H.
  destruct segs as [| s1 [| s2 [| s3 rest]]]; cbn [match_segs] in H |- *.
  - discriminate.
  - destruct (String.eqb (lower "api") (lower s1)); discriminate.
  - destruct (String.eqb (lower "api") (lower s1)); [| discriminate].
    destruct (String.eqb (lower "items") (lower s2)); discriminate.
  - destruct (String.eqb (lower "api") (lower s1)); [| discriminate].
    destruct (String.eqb (lower "items") (lower s2)); [| discriminate].
    destruct (String.eqb_spec (lower "hash") (lower s3)) as [E |]; [| discriminate].
    destruct (String.eqb_spec s3 "") as [-> | _]; [discriminate E |].
    rewrite H; discriminate.
Qed.

(** X15: in both servers [GET /api/items/hash] is handled by the
    [/api/items/:id] route, registered first, with [id = "hash"]; no
    request of any method and path ever reaches the
    [/api/items/hash] handler. *)
Theorem items_hash_route_unreachable :
  dispatch routes "GET" "/api/items/hash" = Some ("/api/items/:id", [("id", "hash")]) /\
  forall method path ps, dispatch routes method path <> Some ("/api/items/hash", ps).
Proof.
  split; [reflexivity |].
  intros method path ps H.
  change routes with
    ([("GET", "/health"); ("GET", "/api/search")] ++ [("GET", "/api/items/:id")]
     ++ [("GET", "/api/items/hash")]
     ++ [("GET", "/api/users/:id"); ("GET", "/api/users/:id/stats");
         ("GET", "/api/users/:id/items"); ("GET", "/api/categories");
         ("POST", "/api/chat"); ("POST", "/api/search-and-contact")])%list in H.
  rewrite !dispatch_app in H.
  destruct (dispatch [("GET", "/health"); ("GET", "/api/search")] method path) as [x |] eqn:D1.
  { injection H as ->; apply dispatch_in in D1; simpl in D1; intuition discriminate. }
  destruct (dispatch [("GET", "/api/items/:id")] method path) as [x |] eqn:D2.
  { injection H as ->; apply dispatch_in in D2; simpl in D2; intuition discriminate. }
  destruct (dispatch [("GET", "/api/items/hash")] method path) as [x |] eqn:D3.
  - cbn [dispatch] in D2, D3.
    destruct (String.eqb "GET" method); [| discriminate].
    change (pattern_of "/api/items/hash") with [SLit "api"; SLit "items"; SLit "hash"] in D3.
    change (pattern_of "/api/items/:id") with [SLit "api"; SLit "items"; SParam "id"] in D2.
    destruct (match_segs [SLit "api"; SLit "items"; SLit "hash"] (path_segments path)) as [ps' |] eqn:M;
      [| discriminate].
    apply hash_pattern_matches_id in M.
    destruct (match_segs [SLit "api"; SLit "items"; SParam "id"] (path_segments path));
      [discriminate | contradiction].
  - apply dispatch_in in H; simpl in H; intuition discriminate.
Qed.

(** ** The hash scraper on pages with other scripts *)

(** [s.includes(lit)] *)
Fixpoint contains (lit s : string) : bool :=
  starts_with lit s || match s with EmptyString => false | String _ r => contains lit r end.

Lemma starts_with_app_long (lit a b : string) :
  starts_with lit (a ++ b) = true -> String.length lit <= String.length a ->
  starts_with lit a = true.
Proof.
  revert a; induction lit as [| x l IH]; intros a H Hl; [reflexivity |].
  destruct a as [| y a']; simpl in Hl; [lia |].
  simpl in H |- *; apply andb_prop in H as [H1 H2].
  rewrite H1; apply IH; [exact H2 | lia].
Qed.

Lemma starts_with_app_short (a lit b : string) :
  starts_with lit (a ++ b) = true -> String.length a <= String.length lit ->
  starts_with (drop (String.length a) lit) b = true.
Proof.
  revert lit; induction a as [| y a' IH]; intros lit H Hl; [exact H |].
  destruct lit as [| x l]; simpl in Hl; [lia |].
  simpl in H |- *; apply andb_prop in H as [_ H2].
  apply IH; [exact H2 | lia].
Qed.

Lemma starts_with_not_lt (lit t : string) (n : nat) :
  no_lt lit = true -> n < String.length lit ->
  starts_with (drop n lit) (String "<"%char t) = false.
Proof.
  revert n; induction lit as [| x l IH]; intros n Hl Hn; simpl in Hn; [lia |].
  simpl in Hl; apply andb_prop in Hl as [H1 H2].
  destruct n as [| m]; simpl.
  - apply negb_true_iff in H1; rewrite H1; reflexivity.
  - apply IH; [exact H2 | lia].
Qed.

Lemma drop_app (n : nat) (a b : string) :
  n <= String.length a -> drop n (a ++ b) = drop n a ++ b.
Proof.
  revert n; induction a as [| c a' IH]; intros n Hn; simpl in Hn.
  - assert (n = 0) as -> by lia; reflexivity.
  - destruct n as [| m]; [reflexivity |]; simpl; apply IH; lia.
Qed.

Lemma drop_split (n : nat) (s : string) : exists x, s = x ++ drop n s.
Proof.
  revert n; induction s as [| c r IH]; intros [| m].
  - exists ""; reflexivity.
  - exists ""; reflexivity.
  - exists ""; reflexivity.
  - destruct (IH m) as [x Hx]; exists (String c x); simpl; rewrite <- Hx; reflexivity.
Qed.

Lemma contains_app (lit a b : string) : contains lit b = true -> contains lit (a ++ b) = true.
Proof.
  induction a as [| c a' IH]; intro H; [exact H |].
  simpl; rewrite (IH H); apply orb_true_r.
Qed.

Lemma contains_start (lit s : string) : starts_with lit s = true -> contains lit s = true.
Proof. intro H; destruct s; simpl; rewrite H; reflexivity. Qed.

Lemma starts_with_split (u s : string) :
  starts_with u s = true -> s = u ++ drop (String.length u) s.
Proof.
  revert s; induction u as [| x u' IH]; intros s H; [reflexivity |].
  destruct s as [| y s']; [discriminate |].
  simpl in H; apply andb_prop in H as [H1 H2].
  apply Ascii.eqb_eq in H1 as <-; simpl; rewrite <- (IH s' H2); reflexivity.
Qed.

Lemma str_app_assoc (a b c : string) : a ++ (b ++ c) = (a ++ b) ++ c.
Proof. induction a as [| x r IH]; simpl; [reflexivity | rewrite IH; reflexivity]. Qed.

Lemma no_lt_app (a b : string) : no_lt (a ++ b) = no_lt a && no_lt b.
Proof.
  induction a as [| c r IH]; [reflexivity |].
  simpl; rewrite IH, andb_assoc; reflexivity.
Qed.

Lemma space_units_no_lt : forallb no_lt space_units = true.
Proof. vm_compute; reflexivity. Qed.

(** What one or more [\s] consume has no ['<']. *)
Lemma eat_one_space_split (s r : string) :
  eat_one_space s = Some r -> exists w, s = w ++ r /\ no_lt w = true.
Proof.
  unfold eat_one_space.
  destruct (find (fun u => starts_with u s) space_units) as [u |] eqn:F; [| discriminate].
  intro E; injection E as <-.
  apply find_some in F as [Hin Hs].
  exists u; split; [apply starts_with_split; exact Hs |].
  pose proof space_units_no_lt as Hall; rewrite forallb_forall in Hall; exact (Hall u Hin).
Qed.

Lemma skip_spaces_split (f : nat) (s : string) :
  exists w, s = w ++ skip_spaces f s /\ no_lt w = true.
Proof.
  revert s; induction f as [| f IH]; intro s; [exists ""; split; reflexivity |].
  simpl; destruct (eat_one_space s) as [r |] eqn:E; [| exists ""; split; reflexivity].
  destruct (eat_one_space_split s r E) as (w1 & -> & H1).
  destruct (IH r) as (w2 & Hr & H2).
  exists (w1 ++ w2); split.
  - rewrite <- str_app_assoc, <- Hr; reflexivity.
  - rewrite no_lt_app, H1, H2; reflexivity.
Qed.

Lemma eat_spaces_split (s r : string) :
  eat_spaces s = Some r -> exists w, s = w ++ r /\ no_lt w = true.
Proof.
  unfold eat_spaces; destruct (eat_one_space s) as [r1 |] eqn:E; [| discriminate].
  intro H; injection H as <-.
  destruct (eat_one_space_split s r1 E) as (w1 & -> & H1).
  destruct (skip_spaces_split (String.length r1) r1) as (w2 & Hr & H2).
  exists (w1 ++ w2); split.
  - rewrite <- str_app_assoc, <- Hr; reflexivity.
  - rewrite no_lt_app, H1, H2; reflexivity.
Qed.

(** A text without ['<'] that starts [a ++ "<" ++ t] lies inside [a]. *)
Lemma no_lt_prefix (w r a t : string) :
  w ++ r = a ++ String "<"%char t -> no_lt w = true ->
  exists x, a = w ++ x /\ r = x ++ String "<"%char t.
Proof.
  revert a; induction w as [| c w' IH]; intros a E H; [exists a; split; [reflexivity | exact E] |].
  simpl in H; apply andb_prop in H as [H1 H2].
  destruct a as [| c' a'].
  - simpl in E; injection E as Ec _; subst c; discriminate H1.
  - simpl in E; injection E as <- E.
    destruct (IH a' E H2) as (x & -> & ->); exists x; split; reflexivity.
Qed.

(** No match of the pattern starts inside a non-empty text without
    [id="__NEXT_DATA__"] that is followed by a ['<']. *)
Lemma next_data_at_before_lt (a t : string) :
  a <> "" -> contains id_attr a = false ->
  next_data_at (a ++ String "<"%char t) = None.
Proof.
  intros Ha Hc.
  unfold next_data_at, eat.
  destruct (starts_with "<script" (a ++ String "<"%char t)) eqn:S1; [| reflexivity].
  destruct (Nat.le_gt_cases 7 (String.length a)) as [Hlong | Hshort].
  - change (String.length "<script") with 7.
    rewrite (drop_app 7 a (String "<"%char t) Hlong).
    destruct (eat_spaces (drop 7 a ++ String "<"%char t)) as [r |] eqn:Sp; [| reflexivity].
    destruct (eat_spaces_split _ _ Sp) as (w & Ew & Hw).
    destruct (no_lt_prefix w r (drop 7 a) t (eq_sym Ew) Hw) as (x & Hx & ->).
    destruct (starts_with id_attr (x ++ String "<"%char t)) eqn:S2; [exfalso | reflexivity].
    destruct (Nat.le_gt_cases (String.length id_attr) (String.length x)) as [Hr | Hr].
    + apply starts_with_app_long in S2; [| exact Hr].
      destruct (drop_split 7 a) as [y Hy].
      assert (Hin : contains id_attr a = true).
      { rewrite Hy, Hx; apply contains_app, contains_app, contains_start; exact S2. }
      congruence.
    + apply starts_with_app_short in S2; [| lia].
      rewrite starts_with_not_lt in S2; [discriminate | reflexivity | exact Hr].
  - exfalso.
    apply starts_with_app_short in S1; [| simpl; lia].
    destruct (String.length a) as [| m] eqn:La.
    + destruct a; [contradiction | discriminate].
    + change (drop (S m) "<script") with (drop m "script") in S1.
      rewrite starts_with_not_lt in S1; [discriminate | reflexivity | simpl; lia].
Qed.

Lemma next_data_match_skip (pre t : string) :
  contains id_attr pre = false ->
  next_data_match (pre ++ String "<"%char t) = next_data_match (String "<"%char t).
Proof.
  induction pre as [| ch p IH]; intro Hc; [reflexivity |].
  rewrite next_data_match_unfold.
  rewrite (next_data_at_before_lt (String ch p) t ltac:(discriminate) Hc).
  change (next_data_match (p ++ String "<"%char t) = next_data_match (String "<"%char t)).
  apply IH; simpl in Hc; apply orb_false_elim in Hc as [_ Hc]; exact Hc.
Qed.

(** X16: [getItemHash] returns the id held by the first
    [__NEXT_DATA__] script of the page whenever the text before that
    tag has no [id="__NEXT_DATA__"] (it may hold any other markup and
    scripts), whatever follows the tag, when the tag's text is JSON
    without ['<'] with a truthy [props.pageProps.item.id]. *)
Theorem getItemHash_first_next_data api page (urlOrSlug : string) (st : Z)
    (pre c rest : string) (v : jval)
    (Hpage : page (item_full_url urlOrSlug) = Resp st (pre ++ next_data_open ++ c ++ "</script>" ++ rest))
    (Hpre : contains id_attr pre = false) (Hc : c <> "") (Hlt : no_lt c = true)
    (Hv : json_parse c = Some v) (Ht : truthy (opt_path v hash_path) = true) :
  run api page (getItemHash urlOrSlug) = Done (opt_path v hash_path).
Proof.
  unfold getItemHash; cbn [run]; rewrite Hpage; unfold hash_of_page.
  change (next_data_open ++ c ++ "</script>" ++ rest)
    with (String "<"%char (drop 1 (next_data_open ++ c ++ "</script>" ++ rest))).
  rewrite (next_data_match_skip pre _ Hpre).
  change (String "<"%char (drop 1 (next_data_open ++ c ++ "</script>" ++ rest)))
    with (next_data_open ++ c ++ "</script>" ++ rest).
  rewrite next_data_match_unfold, (next_data_at_tag c rest Hc Hlt).
  rewrite Hv; cbv zeta; rewrite Ht; reflexivity.
Qed.

(** ** Normalizers *)

(** X17: [simplifyItemDetails] (server.ts) gives the plain title whether
    upstream sends it as a string or as [{ original }]; the price is the
    cash amount whenever that is a number, 0 included (the [??] chain),
    and 0 when neither amount is defined; an empty cash currency is
    skipped for [price.currency], then ['EUR'] (the [||] chain). *)
Theorem simplifyItemDetails_fields (raw : jval) (d : ItemDetails)
    (H : simplifyItemDetails raw = Some d) :
  (forall s, (prop raw "title" = JStr s \/
              exists fs, prop raw "title" = JObj fs /\ obj_lookup fs "original" = Some (JStr s)) ->
     d_title d = JStr s) /\
  (forall q, opt_path (prop raw "price") ["cash"; "amount"] = JNum q -> d_price d = JNum q) /\
  (nullish (opt_path (prop raw "price") ["cash"; "amount"]) = true ->
   nullish (opt_get (prop raw "price") "amount") = true -> d_price d = JNum 0) /\
  (truthy (opt_path (prop raw "price") ["cash"; "currency"]) = false ->
     d_currency d = js_or (opt_get (prop raw "price") "currency") (JStr "EUR")).
Proof.
  unfold simplifyItemDetails in H.
  destruct (nullish raw); [discriminate |].
  destruct (original_text (prop raw "title")) as [title |] eqn:Ot; [| discriminate].
  destruct (original_text (prop raw "description")) as [desc |]; [| discriminate].
  destruct (to_string_throws (prop raw "web_slug")); [discriminate |].
  injection H as <-; cbn [d_title d_price d_currency item_details_of].
  split; [| split; [| split]].
  - intros s [Hs | (fs & Hs & Ho)]; rewrite Hs in Ot; unfold original_text, get_prop in Ot;
      simpl in Ot; [injection Ot as <-; reflexivity |].
    rewrite Ho in Ot; injection Ot as <-; reflexivity.
  - intros q Hq; change (opt_path (prop raw "price") ["cash"; "amount"])
      with (opt_get (opt_get (prop raw "price") "cash") "amount") in Hq.
    rewrite Hq; reflexivity.
  - intros H1 H2; change (opt_path (prop raw "price") ["cash"; "amount"])
      with (opt_get (opt_get (prop raw "price") "cash") "amount") in H1.
    rewrite (js_nullish_left _ _ H1), (js_nullish_left _ _ H2); reflexivity.
  - intro Hc; change (opt_path (prop raw "price") ["cash"; "currency"])
      with (opt_get (opt_get (prop raw "price") "cash") "currency") in Hc.
    rewrite (js_or_falsy _ _ Hc); reflexivity.
Qed.

(** X18: an item without [web_slug] is given the URL
    https://es.wallapop.com/item/undefined, by both normalizers, and the
    composite route's first chat step asks for
    [GET /api/items/hash?slug=undefined]. *)
Theorem missing_slug_urls (item raw : jval) (si : SearchItem) (d : ItemDetails) (message : string)
    (Hsi : simplifySearchItem item = Some si) (Hs : prop item "web_slug" = JUndef)
    (Hd : simplifyItemDetails raw = Some d) (Hr : prop raw "web_slug" = JUndef) :
  si_url si = "https://es.wallapop.com/item/undefined" /\
  chat_step1 (chat_flow message si) = "GET /api/items/hash?slug=undefined" /\
  d_url d = "https://es.wallapop.com/item/undefined".
Proof.
  unfold simplifySearchItem in Hsi; destruct (nullish item); [discriminate |].
  destruct (to_string_throws (prop item "web_slug")); [discriminate |].
  injection Hsi as <-.
  unfold simplifyItemDetails in Hd; destruct (nullish raw); [discriminate |].
  destruct (original_text (prop raw "title")); [| discriminate].
  destruct (original_text (prop raw "description")); [| discriminate].
  destruct (to_string_throws (prop raw "web_slug")); [discriminate |].
  injection Hd as <-.
  unfold chat_flow; cbn [si_url si_slug d_url item_details_of chat_step1].
  rewrite Hs, Hr; repeat split.
Qed.

(** ** Concrete runs *)

Definition mesa_params : SearchParams :=
  {| keywords := Some "mesa"; minPrice := Some 0%Q; maxPrice := Some 50%Q; distance := None;
     latitude := None; longitude := None; categoryId := None; orderBy := None;
     limit := None; nextPage := None |}.

Definition api_status (st : Z) (body : string) (_ : string) (_ : list (string * qval)) : response :=
  Resp st body.

Definition page_status (st : Z) (body : string) (_ : string) : response := Resp st body.

Definition fail_pages (_ : string) : response := NetFail.

Definition fail_api (_ : string) (_ : list (string * qval)) : response := NetFail.

Definition jkey (k : string) : string := dq ++ k ++ dq ++ ":".

Definition hash_json : string :=
  "{" ++ jkey "props" ++ "{" ++ jkey "pageProps" ++ "{" ++ jkey "item" ++ "{"
  ++ jkey "id" ++ dq ++ "qzmmv570nlzv" ++ dq ++ "}}}}".

Definition hash_value : jval :=
  JObj [("props", JObj [("pageProps", JObj [("item", JObj [("id", JStr "qzmmv570nlzv")])])])].

Definition page_head : string :=
  "<html><head><script src=" ++ dq ++ "/main.js" ++ dq ++ "></script></head><body>".

Definition page_tail : string := "</body></html>".

Definition scripted_page : string :=
  page_head ++ next_data_open ++ hash_json ++ "</script>" ++ page_tail.

Lemma search_one_request_witness :
  run (api_status 404 "Not Found") fail_pages (search mesa_params)
    = Failed (ErrorMsg "Wallapop API 404: Not Found").
Proof.
  apply (proj1 (proj2 (search_one_request mesa_params (api_status 404 "Not Found")
                         fail_pages 404 "Not Found" eq_refl))).
  reflexivity.
Defined.

Lemma search_without_items_witness :
  run (api_status 200 "{}") fail_pages (search mesa_params)
    = Done {| sr_items := []; sr_nextPage := JNull; sr_total := 0 |}.
Proof.
  exact (proj1 (search_without_items mesa_params (api_status 200 "{}") fail_pages 200 "{}"
                  (JObj []) eq_refl eq_refl ltac:(vm_compute; reflexivity) eq_refl)).
Defined.

Lemma search_nextPage_null_or_truthy_witness :
  run (api_status 200 "{}") fail_pages (search mesa_params)
    = Done {| sr_items := []; sr_nextPage := JNull; sr_total := 0 |} /\
  (JNull = JNull \/ truthy JNull = true).
Proof.
  split; [vm_compute; reflexivity |].
  exact (search_nextPage_null_or_truthy (api_status 200 "{}") fail_pages mesa_params
           {| sr_items := []; sr_nextPage := JNull; sr_total := 0 |}
           ltac:(vm_compute; reflexivity)).
Defined.

Lemma search_query_fresh_witness :
  assoc "latitude" (search_query mesa_params) = Some (QNum DEFAULT_LAT) /\
  assoc "min_sale_price" (search_query mesa_params) = Some (QNum 0).
Proof.
  split.
  - exact (proj1 (search_query_fresh mesa_params eq_refl)).
  - exact (proj1 (proj2 (proj2 (proj2 (search_query_fresh mesa_params eq_refl))))).
Defined.

Definition ten_items : UserItemsOpts := {| ui_limit := Some 10%Q; ui_nextPage := None |}.

Lemma user_items_query_versions_agree_witness :
  user_items_query ten_items = user_items_query_part001 ten_items.
Proof.
  apply (proj2 (user_items_query_versions_agree ten_items)).
  split; [exists 10%Q; split; reflexivity | discriminate].
Defined.

Definition mesa_body : ContactBody :=
  {| b_query := Some "mesa"; b_message := Some "Hola"; b_maxPrice := Some 50%Q;
     b_minPrice := None; b_limit := None; b_distance := None; b_lat := None; b_lng := None |}.

Lemma search_and_contact_fresh_search_witness :
  assoc "keywords" (search_query (contact_params "mesa" mesa_body)) = Some (QStr "mesa") /\
  assoc "next_page" (search_query (contact_params "mesa" mesa_body)) = None.
Proof.
  pose proof (search_and_contact_fresh_search mesa_body "mesa" "Hola" eq_refl
                ltac:(discriminate) eq_refl ltac:(discriminate)) as W.
  split; [exact (proj1 (proj2 W)) | exact (proj1 (proj2 (proj2 W)))].
Defined.

Lemma items_route_replies_witness :
  respond (run (api_status 404 "Not Found") fail_pages (items_route "1232652380"))
    = ErrorReply 500 (Some "Wallapop API 404: Not Found").
Proof.
  apply (proj1 (items_route_replies (api_status 404 "Not Found") fail_pages "1232652380"
                  404 "Not Found" eq_refl)).
  reflexivity.
Defined.

Lemma chat_route_rejects_witness :
  chat_route {| cb_itemUrl := Some "mesa-1"; cb_itemHash := None; cb_message := Some "" |}
    = Ret (Status400 "message required").
Proof.
  apply (proj1 (chat_route_rejects
                  {| cb_itemUrl := Some "mesa-1"; cb_itemHash := None; cb_message := Some "" |})).
  reflexivity.
Defined.

Definition hash_body : ChatBody :=
  {| cb_itemUrl := Some "https://es.wallapop.com/item/mesa-1";
     cb_itemHash := Some "qzmmv570nlzv"; cb_message := Some "Hola" |}.

Lemma chat_route_provided_hash_witness :
  chat_route hash_body = Ret (JsonOk (chat_reply (JStr "qzmmv570nlzv") "Hola")).
Proof.
  exact (proj1 (chat_route_provided_hash hash_body "Hola" "qzmmv570nlzv" eq_refl
                  ltac:(discriminate) eq_refl ltac:(discriminate))).
Defined.

Definition url_body : ChatBody :=
  {| cb_itemUrl := Some "mesa-1"; cb_itemHash := None; cb_message := Some "Hola" |}.

Lemma chat_route_scrapes_hash_witness :
  run (api_status 404 "Not Found") (page_status 200 scripted_page) (chat_route url_body)
    = Done (JsonOk (chat_reply (JStr "qzmmv570nlzv") "Hola")).
Proof.
  exact (proj1 (proj2 (chat_route_scrapes_hash (api_status 404 "Not Found") (page_status 200 scripted_page)
           url_body "mesa-1" "Hola" 200 scripted_page hash_json hash_value
           eq_refl ltac:(discriminate) eq_refl eq_refl ltac:(discriminate) eq_refl
           ltac:(vm_compute; reflexivity) ltac:(vm_compute; reflexivity) ltac:(vm_compute; reflexivity)))
           ltac:(vm_compute; reflexivity)).
Defined.

Lemma messaging_requests_witness :
  run fail_api (page_status 401 "Unauthorized") (getInbox "token" (mkInboxOpts None None))
    = Failed (ErrorMsg "Inbox 401: Unauthorized").
Proof.
  apply (proj1 (proj2 (proj2 (proj2 (proj2 (proj2
           (messaging_requests "token" "c1" (mkInboxOpts None None) fail_api fail_api
              (page_status 401 "Unauthorized") 401 "Unauthorized" eq_refl))))))).
  reflexivity.
Defined.

Lemma items_hash_route_unreachable_witness :
  dispatch routes "GET" "/API/items/hash/" <> Some ("/api/items/hash", []).
Proof. exact (proj2 items_hash_route_unreachable "GET" "/API/items/hash/" []). Defined.

Lemma getItemHash_first_next_data_witness :
  run (api_status 404 "Not Found") (page_status 200 scripted_page) (getItemHash "mesa-1")
    = Done (JStr "qzmmv570nlzv").
Proof.
  exact (getItemHash_first_next_data (api_status 404 "Not Found") (page_status 200 scripted_page)
           "mesa-1" 200 page_head hash_json page_tail hash_value eq_refl
           ltac:(vm_compute; reflexivity) ltac:(discriminate) ltac:(vm_compute; reflexivity)
           ltac:(vm_compute; reflexivity) ltac:(vm_compute; reflexivity)).
Defined.

Definition raw_zero_cash : jval :=
  JObj [("title", JObj [("original", JStr "Mesa")]); ("description", JStr "Blanca");
        ("price", JObj [("cash", JObj [("amount", JNum 0); ("currency", JStr "")]);
                        ("amount", JNum 30); ("currency", JStr "USD")])].

Lemma simplifyItemDetails_fields_witness :
  exists d, simplifyItemDetails raw_zero_cash = Some d /\
            d_title d = JStr "Mesa" /\ d_price d = JNum 0 /\ d_currency d = JStr "USD".
Proof.
  eexists; split; [reflexivity |].
  pose proof (simplifyItemDetails_fields raw_zero_cash _ eq_refl) as W.
  split; [| split].
  - apply (proj1 W); right; eexists; split; reflexivity.
  - apply (proj1 (proj2 W)); reflexivity.
  - rewrite (proj2 (proj2 (proj2 W)) ltac:(vm_compute; reflexivity)); reflexivity.
Defined.

Definition item_no_slug : jval := JObj [("id", JStr "1232652380"); ("title", JStr "Mesa")].

Lemma missing_slug_urls_witness :
  exists si d, simplifySearchItem item_no_slug = Some si /\
               simplifyItemDetails item_no_slug = Some d /\
               si_url si = "https://es.wallapop.com/item/undefined" /\
               d_url d = "https://es.wallapop.com/item/undefined".
Proof.
  do 2 eexists; split; [reflexivity |]; split; [reflexivity |].
  pose proof (missing_slug_urls item_no_slug item_no_slug _ _ "Hola" eq_refl eq_refl eq_refl eq_refl) as W.
  split; [exact (proj1 W) | exact (proj2 (proj2 W))].
Defined.
